(** * safe-search front end: SearchPage, its service-based variant, MetricsPage

    A shallow embedding of the three React components of the repository:
    - [SearchPage]        frontend/src/components/SearchPage.jsx
    - [ServiceSearchPage] the second SearchPage, built on the search services
    - [MetricsPage]       the metrics dashboard

    Component state is a record, the event handlers are programs of a small
    state-and-exception monad over that record and the list of calls sent to
    the collaborators, and the JSX is a function from props and state to a
    flat list of rendered nodes in document order.

    The modules the components import ([../services/api], [../utils/crypto],
    the two search services) are not part of the sources; they are the fields
    of [Env], and every statement below holds for every [Env]. *)

From Stdlib Require Import String Ascii List ZArith Lia Bool DecimalString.
Import ListNotations.
Set Warnings "-register-all".
Local Open Scope list_scope.
Local Open Scope string_scope.

(* ------------------------------------------------------------------ *)
(** ** JavaScript values *)

Module Js.

(** The values that travel through the components: response bodies, error
    payloads, result records.  Numbers are the integers (no field the
    components compute with is fractional); an object is the list of its own
    properties, keys distinct. *)
Inductive json : Type :=
| JUndef
| JNull
| JBool (b : bool)
| JNum (z : Z)
| JStr (s : string)
| JArr (l : list json)
| JObj (fields : list (string * json)).

(** What a rejected promise or a [throw] carries: the [TypeError] the engine
    raises on a property read of [undefined]/[null] or on a call of a
    non-function, or a value raised by a collaborator. *)
Inductive thrown : Type :=
| TypeError
| Raised (v : json).

(** ToBoolean. *)
Definition truthy (v : json) : bool :=
  match v with
  | JUndef | JNull => false
  | JBool b => b
  | JNum z => negb (z =? 0)%Z
  | JStr s => negb (s =? "")
  | JArr _ | JObj _ => true
  end.

(** [a || b] *)
Definition or_else (a b : json) : json := if truthy a then a else b.

Fixpoint lookup (k : string) (fields : list (string * json)) : json :=
  match fields with
  | [] => JUndef
  | (k', v) :: rest => if k' =? k then v else lookup k rest
  end.

Definition is_nullish (v : json) : bool :=
  match v with JUndef | JNull => true | _ => false end.

(** [v.k] for the property names the sources read; none of them is an index.
    A read on [undefined] or [null] throws. *)
Definition get (v : json) (k : string) : thrown + json :=
  match v with
  | JUndef | JNull => inl TypeError
  | JObj fields => inr (lookup k fields)
  | JStr s => inr (if k =? "length" then JNum (Z.of_nat (String.length s)) else JUndef)
  | JArr l => inr (if k =? "length" then JNum (Z.of_nat (List.length l)) else JUndef)
  | JBool _ | JNum _ => inr JUndef
  end.

(** [v?.k] *)
Definition get_opt (v : json) (k : string) : json :=
  match get v k with
  | inl _ => JUndef
  | inr x => x
  end.

Definition string_of_Z (z : Z) : string := NilZero.string_of_int (Z.to_int z).

(** ToString, as a template literal applies it. *)
Fixpoint to_string (v : json) : string :=
  match v with
  | JUndef => "undefined"
  | JNull => "null"
  | JBool true => "true"
  | JBool false => "false"
  | JNum z => string_of_Z z
  | JStr s => s
  | JArr l =>
      (fix join (l : list json) : string :=
         match l with
         | [] => ""
         | x :: rest =>
             let e := match x with JUndef | JNull => "" | _ => to_string x end in
             match rest with
             | [] => e
             | _ => e ++ "," ++ join rest
             end
         end) l
  | JObj _ => "[object Object]"
  end.

(** [a > 0] on the values the model compares: numbers, booleans, [null]
    (which is 0) and [undefined] (NaN).  Strings, arrays and objects would go
    through a numeric parse and are outside the model: [None]. *)
Definition gt_zero (v : json) : option bool :=
  match v with
  | JNum z => Some (0 <? z)%Z
  | JBool b => Some b
  | JNull | JUndef => Some false
  | JStr _ | JArr _ | JObj _ => None
  end.

(** [needle] occurs in [hay] ([hay.includes(needle)]). *)
Fixpoint includes (hay needle : string) : bool :=
  prefix needle hay ||
  match hay with
  | EmptyString => false
  | String _ rest => includes rest needle
  end.

End Js.
Import Js.

(* ------------------------------------------------------------------ *)
(** ** Effects *)

(** A call that leaves the component. *)
Inductive call : Type :=
| ApiPost (url : string) (body : json)
| ApiGet (url : string)
| ApiDelete (url : string)
| InternalSearch (payload : json)
| ExternalSearch (query : string) (privateKey : option string).

(** The imported modules and the browser.  A network answer may depend on
    everything sent before it; the crypto helpers are functions of their
    arguments.  [inl] is a throw or a rejected promise. *)
Record Env : Type := {
  normalizeKeyword : string -> thrown + string;
  sha256Hex : string -> thrown + string;
  signHashHex : string -> option string -> thrown + string;
  respond : list call -> call -> thrown + json;
  localStorage_getItem : string -> option string;
  type_error_message : string
}.

(** The component's state [St], what it has sent, and what it has written to
    the console and shown in alert boxes. *)
Record World (St : Type) : Type := {
  ui : St;
  net : list call;
  console : list thrown;
  alerts : list string
}.
Arguments ui {St} _.
Arguments net {St} _.
Arguments console {St} _.
Arguments alerts {St} _.
Arguments Build_World {St} _ _ _ _.

Inductive completion (A : Type) : Type :=
| Normal (a : A)
| Throw (e : thrown)
| Return.
Arguments Normal {A} _.
Arguments Throw {A} _.
Arguments Return {A}.

Definition M (St A : Type) : Type := World St -> completion A * World St.

Section Monad.
Context {St : Type}.

Definition ret {A} (a : A) : M St A := fun w => (Normal a, w).

Definition bind {A B} (m : M St A) (f : A -> M St B) : M St B :=
  fun w =>
    match m w with
    | (Normal a, w') => f a w'
    | (Throw e, w') => (Throw e, w')
    | (Return, w') => (Return, w')
    end.

(** [return;] *)
Definition return_ {A} : M St A := fun w => (Return, w).

(** A fallible pure step: a property read, a crypto helper. *)
Definition lift {A} (r : thrown + A) : M St A :=
  fun w => match r with inl e => (Throw e, w) | inr a => (Normal a, w) end.

Definition when (b : bool) (m : M St unit) : M St unit :=
  if b then m else ret tt.

Definition modify (f : St -> St) : M St unit :=
  fun w => (Normal tt, Build_World (f (ui w)) (net w) (console w) (alerts w)).

(** [await] of a collaborator: the call is recorded, then answered. *)
Definition perform (E : Env) (c : call) : M St json :=
  fun w =>
    let w' := Build_World (ui w) (net w ++ [c]) (console w) (alerts w) in
    match respond E (net w) c with
    | inl e => (Throw e, w')
    | inr v => (Normal v, w')
    end.

Definition console_error (e : thrown) : M St unit :=
  fun w => (Normal tt, Build_World (ui w) (net w) (console w ++ [e]) (alerts w)).

Definition alert (s : string) : M St unit :=
  fun w => (Normal tt, Build_World (ui w) (net w) (console w) (alerts w ++ [s])).

(** [await delay(ms)]: a timer that always fires; time is not observed. *)
Definition delay (ms : Z) : M St unit := ret tt.

(** [try { body } catch (err) { handler } finally { fin }] *)
Definition try_catch_finally
    (body : M St unit) (handler : thrown -> M St unit) (fin : M St unit) : M St unit :=
  fun w =>
    let (c1, w1) := body w in
    let (c2, w2) := match c1 with
                    | Throw e => handler e w1
                    | _ => (c1, w1)
                    end in
    let (c3, w3) := fin w2 in
    match c3 with
    | Normal _ => (c2, w3)
    | _ => (c3, w3)
    end.

(** [try { body } catch (err) { handler }] *)
Definition try_catch (body : M St unit) (handler : thrown -> M St unit) : M St unit :=
  try_catch_finally body handler (ret tt).

(** The state an [async] function leaves behind. *)
Definition exec {A} (m : M St A) (w : World St) : World St := snd (m w).
End Monad.

Notation "x <- m ;; k" := (bind m (fun x => k))
  (at level 61, m at next level, right associativity).
Notation "m ;; k" := (bind m (fun _ => k))
  (at level 61, right associativity).

(** A fresh page: nothing sent, nothing printed. *)
Definition mount {St} (s : St) : World St := Build_World s [] [] [].

(** [role === name] *)
Definition role_is (role : option string) (name : string) : bool :=
  match role with
  | Some r => r =? name
  | None => false
  end.

(** An auditor as the identity provider hands it over. *)
Record Auditor : Type := {
  auditor_id : string;
  name : string;
  active_key_version : Z
}.

(** [!privateKey] is true for a missing key and for the empty string. *)
Definition present (s : option string) : bool :=
  match s with
  | Some k => negb (k =? "")
  | None => false
  end.

(** [err.k] in a [catch]: the engine's [TypeError] has a message and no
    [response]; a raised value is read like any other. *)
Definition err_get (E : Env) (e : thrown) (k : string) : thrown + json :=
  match e with
  | TypeError => inr (if k =? "message" then JStr (type_error_message E) else JUndef)
  | Raised v => get v k
  end.

(* ------------------------------------------------------------------ *)
(** ** Rendered output *)

(** What a component puts on the page, flattened in document order. *)
Inductive node : Type :=
| Heading (text : string)
| Paragraph (text : string)
| TextNode (text : string)
| Select (value : string) (options : list string)
| Input (value placeholder : string)
| Button (label : string) (disabled : bool)
| Info (label : string) (value : json) (highlight : string)
| Metric (label : string) (value : json) (suffix : string)
| RecordBox (r : json)
| LogLine (text : string)
| StatCard (label : string) (value : json)
| MetricBox (label : string) (value : json) (danger : bool)
| Row (label : string) (value : json)
| DateRow (label : string) (date : json)
| AuditorRow (name id : json) (key_version : json)
| CreateAuditorCard.

(** A value placed between tags: numbers and strings are printed, booleans,
    [null] and [undefined] print nothing, an object is refused by React;
    arrays of children are left out of the model. *)
Definition child_text (v : json) : option string :=
  match v with
  | JNum z => Some (string_of_Z z)
  | JStr s => Some s
  | JBool _ | JNull | JUndef => Some ""
  | JArr _ | JObj _ => None
  end.

(** [cond && <jsx/>] when [cond] is falsy: React prints a number and nothing
    else. *)
Definition falsy_child (v : json) : list node :=
  match v with
  | JNum z => [TextNode (string_of_Z z)]
  | _ => []
  end.

Definition children_ok (vs : list json) : bool :=
  forallb (fun v => match child_text v with Some _ => true | None => false end) vs.

(** [v === 0] *)
Definition is_zero (v : json) : bool :=
  match v with
  | JNum z => (z =? 0)%Z
  | _ => false
  end.

(** [xs.length === 0 ? <p>empty</p> : xs.map(one)] for a non-nullish [xs];
    [None] when [xs.map] is not a function. *)
Definition render_list (xs : json) (empty : string) (one : json -> option node)
  : option (list node) :=
  match get xs "length" with
  | inl _ => None
  | inr len =>
      if is_zero len then Some [Paragraph empty]
      else match xs with
           | JArr l =>
               fold_right (fun x acc =>
                             match one x, acc with
                             | Some n, Some ns => Some (n :: ns)
                             | _, _ => None
                             end) (Some []) l
           | _ => None
           end
  end.

(* ------------------------------------------------------------------ *)
(** ** SearchPage (frontend/src/components/SearchPage.jsx) *)

Module SearchPage.

Record Props : Type := {
  role : option string;
  auditor : option Auditor;
  privateKey : option string
}.

Record State : Type := {
  query : string;
  field : string;
  results : json;
  meta : json;
  logs : list string;
  loading : bool
}.

(** The [useState] initial values. *)
Definition initial : State := {|
  query := "";
  field := "pan";
  results := JArr [];
  meta := JNull;
  logs := ["Awaiting search query..."];
  loading := false
|}.

Definition setQuery (q : string) : M State unit :=
  modify (fun s => {| query := q; field := field s; results := results s;
                      meta := meta s; logs := logs s; loading := loading s |}).
Definition setField (f : string) : M State unit :=
  modify (fun s => {| query := query s; field := f; results := results s;
                      meta := meta s; logs := logs s; loading := loading s |}).
Definition setResults (r : json) : M State unit :=
  modify (fun s => {| query := query s; field := field s; results := r;
                      meta := meta s; logs := logs s; loading := loading s |}).
Definition setMeta (m : json) : M State unit :=
  modify (fun s => {| query := query s; field := field s; results := results s;
                      meta := m; logs := logs s; loading := loading s |}).
Definition setLogs (f : list string -> list string) : M State unit :=
  modify (fun s => {| query := query s; field := field s; results := results s;
                      meta := meta s; logs := f (logs s); loading := loading s |}).
Definition setLoading (b : bool) : M State unit :=
  modify (fun s => {| query := query s; field := field s; results := results s;
                      meta := meta s; logs := logs s; loading := b |}).

(** [setLogs(prev => [...prev, line])] *)
Definition log (line : string) : M State unit :=
  setLogs (fun prev => (prev ++ [line])%list).

(** The [catch] block. *)
Definition on_error (E : Env) (err : thrown) : M State unit :=
  console_error err ;;
  response <- lift (err_get E err "response") ;;
  let error := get_opt (get_opt response "data") "error" in
  if truthy error
  then code <- lift (get error "code") ;;
       log ("Error: " ++ to_string code)
  else log "Unknown error occurred".

Definition handleSearch (E : Env) (p : Props) : M State unit :=
  fun w =>
  let query := query (ui w) in
  let field := field (ui w) in
  (when (negb (truthy (JStr query))) return_ ;;
   try_catch_finally
     (setLoading true ;;
      setResults (JArr []) ;;
      setMeta JNull ;;
      setLogs (fun _ => ["Preparing search..."]) ;;

      when (role_is (role p) "internal")
        (delay 300 ;;
         log "Generating HMAC trapdoor..." ;;
         let payload := JObj [(field, JStr query)] in
         delay 300 ;;
         log "Sending request to /api/search/internal/" ;;
         res <- perform E (ApiPost "/api/search/internal/" payload) ;;
         body <- lift (get res "data") ;;
         data <- lift (get body "data") ;;
         setResults (or_else (get_opt data "results") (JArr [])) ;;
         body <- lift (get res "data") ;;
         m <- lift (get body "meta") ;;
         setMeta m ;;
         log "Internal search complete ✔") ;;

      when (role_is (role p) "external")
        (when (negb (present (privateKey p)))
           (log "No auditor private key found" ;;
            setLoading false ;;
            return_) ;;
         when (match auditor p with Some _ => false | None => true end)
           (log "No auditor identity found" ;;
            setLoading false ;;
            return_) ;;
         delay 300 ;;
         log "Normalizing keyword..." ;;
         normalized <- lift (normalizeKeyword E query) ;;
         delay 300 ;;
         log "Hashing keyword (SHA256)..." ;;
         keywordHash <- lift (sha256Hex E normalized) ;;
         delay 300 ;;
         log "Signing hash with RSA private key..." ;;
         signature <- lift (signHashHex E keywordHash (privateKey p)) ;;
         id <- lift (match auditor p with
                     | Some a => inr (auditor_id a)
                     | None => inl TypeError
                     end) ;;
         let payload := JObj [("auditor_id", JStr id);
                              ("keyword_hash", JStr keywordHash);
                              ("signature", JStr signature)] in
         delay 300 ;;
         log "Sending request to /api/search/external/" ;;
         res <- perform E (ApiPost "/api/search/external/" payload) ;;
         body <- lift (get res "data") ;;
         data <- lift (get body "data") ;;
         setResults (or_else (get_opt data "results") (JArr [])) ;;
         body <- lift (get res "data") ;;
         m <- lift (get body "meta") ;;
         setMeta m ;;
         log "Encrypted results received ✔"))
     (on_error E)
     (setLoading false)) w.

(** The [Info] helper component: [highlight || ""] goes into the class. *)
Definition Info_ (label : string) (value : json) (highlight : option string) : node :=
  Info label value (match highlight with Some h => h | None => "" end).

Definition field_options : list string :=
  ["pan"; "customer_id"; "aadhaar"; "name"; "compliance_flag"].

(** The page.  [None]: the render throws ([results.map] on a non-array, an
    object as a child) or compares a non-number with 0. *)
Definition render (p : Props) (s : State) : option (list node) :=
  let internal := role_is (role p) "internal" in
  let head :=
    [Heading "Encrypted Search";
     Paragraph (if internal then "Internal SSE Search"
                else "External Public-Key Audit Verification")] in
  let card :=
    ((if internal then [Select (field s) field_options] else []) ++
    [Input (query s) "Enter search value...";
     Button (if loading s then "Searching..." else "Search") (loading s)])%list in
  let internal_results :=
    if internal
    then match render_list (results s) "No results" (fun r => Some (RecordBox r)) with
         | Some ns => Some (Heading "Decrypted Results" :: ns)
         | None => None
         end
    else Some [] in
  let external_results :=
    if role_is (role p) "external"
    then if truthy (meta s)
         then let total := get_opt (meta s) "total_matches" in
              let time := get_opt (meta s) "execution_time_ms" in
              match gt_zero total, child_text total with
              | Some positive, Some _ =>
                  Some [Heading "Audit Verification Result";
                        Info_ "Query" (JStr (query s)) None;
                        Info_ "Match Exists"
                              (JStr (if positive then "YES ✔" else "NO"))
                              (Some (if positive then "text-green-600" else "text-red-600"));
                        Info_ "Result Set Size" total None;
                        Info_ "Response Padding" (JStr "Fixed-size protected response") None;
                        Info_ "Execution Time" (JStr (to_string time ++ " ms")) None;
                        Info_ "Data Visibility" (JStr "Encrypted (Auditor-level access)")
                              (Some "text-blue-600")]
              | _, _ => None
              end
         else Some (falsy_child (meta s))
    else Some [] in
  match internal_results, external_results with
  | Some ir, Some er =>
      Some (head ++ card ++ ir ++ er ++
            Heading "Search Logs" :: map LogLine (logs s))%list
  | _, _ => None
  end.

End SearchPage.

(* ------------------------------------------------------------------ *)
(** ** The second SearchPage, on internalSearchService / externalSearchService *)

Module ServiceSearchPage.

Record Props : Type := { role : option string }.

Record State : Type := {
  query : string;
  results : json;
  meta : json;
  logs : list string;
  loading : bool
}.

Definition initial : State := {|
  query := "";
  results := JArr [];
  meta := JNull;
  logs := ["Awaiting search query..."];
  loading := false
|}.

Definition setQuery (q : string) : M State unit :=
  modify (fun s => {| query := q; results := results s; meta := meta s;
                      logs := logs s; loading := loading s |}).
Definition setResults (r : json) : M State unit :=
  modify (fun s => {| query := query s; results := r; meta := meta s;
                      logs := logs s; loading := loading s |}).
Definition setMeta (m : json) : M State unit :=
  modify (fun s => {| query := query s; results := results s; meta := m;
                      logs := logs s; loading := loading s |}).
Definition setLogs (f : list string -> list string) : M State unit :=
  modify (fun s => {| query := query s; results := results s; meta := meta s;
                      logs := f (logs s); loading := loading s |}).
Definition setLoading (b : bool) : M State unit :=
  modify (fun s => {| query := query s; results := results s; meta := meta s;
                      logs := logs s; loading := b |}).

Definition log (line : string) : M State unit :=
  setLogs (fun prev => (prev ++ [line])%list).

(** The [catch] block. *)
Definition on_error (E : Env) (err : thrown) : M State unit :=
  console_error err ;;
  message <- lift (err_get E err "message") ;;
  log ("Error: " ++ to_string message).

Definition handleSearch (E : Env) (p : Props) : M State unit :=
  fun w =>
  let query := query (ui w) in
  (when (negb (truthy (JStr query))) return_ ;;
   try_catch_finally
     (setLoading true ;;
      setResults (JArr []) ;;
      setMeta JNull ;;
      setLogs (fun _ => ["Preparing search..."]) ;;

      when (role_is (role p) "internal")
        (let payload := JObj [("keyword", JStr query)] in
         delay 400 ;;
         log "Generating HMAC trapdoor..." ;;
         delay 500 ;;
         log "Sending to SSE engine..." ;;
         res <- perform E (InternalSearch payload) ;;
         delay 500 ;;
         log "Decrypting records..." ;;
         data <- lift (get res "data") ;;
         rs <- lift (get data "results") ;;
         setResults (or_else rs (JArr [])) ;;
         m <- lift (get res "meta") ;;
         setMeta m ;;
         log "Internal search complete ✔") ;;

      when (role_is (role p) "external")
        (let privateKey := localStorage_getItem E "auditor_private_key" in
         when (negb (present privateKey))
           (log "No auditor key found" ;;
            return_) ;;
         delay 400 ;;
         log "Hashing keyword (SHA256)..." ;;
         delay 500 ;;
         log "Signing hash (RSA)..." ;;
         res <- perform E (ExternalSearch query privateKey) ;;
         delay 500 ;;
         log "Matching encrypted index..." ;;
         data <- lift (get res "data") ;;
         rs <- lift (get data "results") ;;
         setResults (or_else rs (JArr [])) ;;
         m <- lift (get res "meta") ;;
         setMeta m ;;
         log "External search complete ✔"))
     (on_error E)
     (setLoading false)) w.

(** The page; [None] as for [SearchPage.render]. *)
Definition render (p : Props) (s : State) : option (list node) :=
  let head :=
    [Heading "Encrypted Search";
     Paragraph (if role_is (role p) "internal" then "Internal SSE Search"
                else "External Public-Key Search");
     Input (query s) "Enter search query...";
     Button (if loading s then "Searching..." else "Search") (loading s)] in
  let metrics :=
    if truthy (meta s)
    then let total := get_opt (meta s) "total_matches" in
         let returned := get_opt (meta s) "returned_count" in
         let time := get_opt (meta s) "execution_time_ms" in
         if children_ok [total; returned; time]
         then Some [Heading "Metrics";
                    Metric "Matches" total "";
                    Metric "Returned" returned "";
                    Metric "Time" time " ms";
                    Metric "Truncated"
                           (JStr (if truthy (get_opt (meta s) "truncated")
                                  then "Yes" else "No")) ""]
         else None
    else Some (falsy_child (meta s)) in
  match render_list (results s) "No results yet" (fun r => Some (RecordBox r)), metrics with
  | Some rs, Some ms =>
      Some (head ++ Heading "Results" :: rs ++
            Heading "Search Logs" :: map LogLine (logs s) ++ ms)%list
  | _, _ => None
  end.

End ServiceSearchPage.

(* ------------------------------------------------------------------ *)
(** ** MetricsPage *)

Module MetricsPage.

Record Props : Type := { role : option string }.

Record State : Type := {
  internalData : json;
  externalData : json;
  loading : bool;
  error : option string
}.

Definition initial : State := {|
  internalData := JNull;
  externalData := JNull;
  loading := true;
  error := None
|}.

Definition lower (c : ascii) : ascii :=
  let n := nat_of_ascii c in
  if (65 <=? n)%nat && (n <=? 90)%nat then ascii_of_nat (n + 32) else c.

(** [s.toLowerCase()] on the bytes of [s]: the letters A-Z are folded, every
    other byte is kept.  No character outside A-Z lower-cases to a letter of
    the word internal, so the test of [isInternal] is not affected. *)
Fixpoint toLowerCase (s : string) : string :=
  match s with
  | EmptyString => EmptyString
  | String c rest => String (lower c) (toLowerCase rest)
  end.

(** [role?.toLowerCase() || "internal"] *)
Definition resolvedRole (p : Props) : string :=
  match option_map toLowerCase (role p) with
  | Some r => if truthy (JStr r) then r else "internal"
  | None => "internal"
  end.

Definition isInternal (p : Props) : bool := resolvedRole p =? "internal".

Definition setInternalData (d : json) : M State unit :=
  modify (fun s => {| internalData := d; externalData := externalData s;
                      loading := loading s; error := error s |}).
Definition setExternalData (d : json) : M State unit :=
  modify (fun s => {| internalData := internalData s; externalData := d;
                      loading := loading s; error := error s |}).
Definition setLoading (b : bool) : M State unit :=
  modify (fun s => {| internalData := internalData s; externalData := externalData s;
                      loading := b; error := error s |}).
Definition setError (e : string) : M State unit :=
  modify (fun s => {| internalData := internalData s; externalData := externalData s;
                      loading := loading s; error := Some e |}).

Definition fetchMetrics (E : Env) (p : Props) : M State unit :=
  try_catch_finally
    (setLoading true ;;
     if isInternal p
     then res <- perform E (ApiGet "/api/metrics/internal/") ;;
          body <- lift (get res "data") ;;
          setInternalData (or_else (get_opt body "data") (JObj []))
     else res <- perform E (ApiGet "/api/metrics/external/") ;;
          body <- lift (get res "data") ;;
          setExternalData (or_else (get_opt body "data") (JObj [])))
    (fun err => console_error err ;; setError "Failed to load metrics")
    (setLoading false).

(** [useEffect(() => { fetchMetrics(); }, [resolvedRole])] *)
Definition effect (E : Env) (p : Props) : M State unit := fetchMetrics E p.

(** [fetchMetrics()] is started without [await]; it catches everything
    itself, so running it in sequence leaves the same state. *)
Definition handleDeleteAuditor (E : Env) (p : Props) (auditorId : json) : M State unit :=
  try_catch
    (perform E (ApiDelete ("/api/auditor/" ++ to_string auditorId ++ "/delete/")) ;;
     fetchMetrics E p)
    (fun err => console_error err ;; alert "Failed to delete auditor").

(** [safe(val, fallback)] *)
Definition safe (val fallback : json) : json :=
  if is_nullish val then fallback else val.

(** One entry of the auditor list; a [null] entry makes the render throw. *)
Definition auditor_row (a : json) : option node :=
  match get a "name", get a "auditor_id", get a "active_key_version" with
  | inr n, inr i, inr v =>
      let v := safe v (JNum 1) in
      if children_ok [n; i; v] then Some (AuditorRow n i v) else None
  | _, _, _ => None
  end.

(** [safeDate]; the locale string of a date is not computed. *)
Definition date_row (label : string) (date : json) : node :=
  if truthy date then DateRow label date else Row label (JStr "No data").

Definition render (p : Props) (s : State) : option (list node) :=
  if loading s then Some [TextNode "Loading metrics..."]
  else if present (error s)
  then Some [TextNode (match error s with Some e => e | None => "" end)]
  else if negb (isInternal p)
  then
    let total := safe (get_opt (externalData s) "total_documents") (JNum 0) in
    if children_ok [total]
    then Some [Heading "System Metrics";
               Paragraph "External view (restricted)";
               Metric "Total Documents" total ""]
    else None
  else
    let systemMetrics := or_else (get_opt (internalData s) "system_metrics") (JObj []) in
    let auditors := or_else (get_opt (internalData s) "auditors") (JArr []) in
    let m k := safe (get_opt systemMetrics k) (JNum 0) in
    let failed := m "failed_external_searches_last_24h" in
    match render_list auditors "No auditors registered." auditor_row, gt_zero failed with
    | Some rows, Some danger =>
        if children_ok [m "total_documents"; m "total_tokens";
                        m "external_searches_last_24h"; failed; m "external_tokens"]
        then Some
          ([Heading "System Metrics";
            Paragraph "Real-time performance and security analytics";
            CreateAuditorCard;
            StatCard "Total Documents" (m "total_documents");
            StatCard "Total Tokens" (m "total_tokens");
            StatCard "Avg External Search"
                     (JStr (to_string (m "avg_external_search_ms") ++ " ms"));
            StatCard "External Searches (24h)" (m "external_searches_last_24h");
            Heading "Auditor Key Overview"] ++ rows ++
           [Heading "Security Overview";
            MetricBox "Failed Signature Verifications (24h)" failed danger;
            MetricBox "External Token Entries" (m "external_tokens") false;
            MetricBox "Avg External Search Time"
                      (JStr (to_string (m "avg_external_search_ms") ++ " ms")) false;
            Heading "Index Health";
            date_row "Last Index Update" (get_opt systemMetrics "last_index_update");
            Row "Total Token Entries" (m "total_tokens");
            Row "External Token Entries" (m "external_tokens")])%list
        else None
    | _, _ => None
    end.

End MetricsPage.

(* ------------------------------------------------------------------ *)
(** ** The request body on the wire *)

Module Wire.

Definition hex_digit (n : nat) : ascii :=
  ascii_of_nat (if (n <? 10)%nat then 48 + n else 87 + n).

Definition quote_char : string := String (ascii_of_nat 34) EmptyString.
Definition backslash : string := String (ascii_of_nat 92) EmptyString.

Definition escape (c : ascii) : string :=
  let n := nat_of_ascii c in
  if (n =? 34)%nat then backslash ++ quote_char
  else if (n =? 92)%nat then backslash ++ backslash
  else if (n =? 8)%nat then backslash ++ "b"
  else if (n =? 12)%nat then backslash ++ "f"
  else if (n =? 10)%nat then backslash ++ "n"
  else if (n =? 13)%nat then backslash ++ "r"
  else if (n =? 9)%nat then backslash ++ "t"
  else if (n <? 32)%nat
       then backslash ++ "u00" ++
            String (hex_digit (n / 16)) (String (hex_digit (n mod 16)) EmptyString)
  else String c EmptyString.

Fixpoint escape_all (s : string) : string :=
  match s with
  | EmptyString => EmptyString
  | String c rest => escape c ++ escape_all rest
  end.

Definition quote (s : string) : string := quote_char ++ escape_all s ++ quote_char.

(** Modelled from the spec: the api module, which turns the payload object
    into the request body, is not part of the sources; section 6 gives the
    body as the JSON text of the payload, and this is [JSON.stringify] on
    it: properties in insertion order, an [undefined] property dropped,
    [undefined] in an array written as null, [None] for a bare [undefined]. *)
Fixpoint stringify (v : json) : option string :=
  match v with
  | JUndef => None
  | JNull => Some "null"
  | JBool true => Some "true"
  | JBool false => Some "false"
  | JNum z => Some (string_of_Z z)
  | JStr s => Some (quote s)
  | JArr l =>
      Some ("[" ++
            (fix items (l : list json) : string :=
               match l with
               | [] => ""
               | x :: rest =>
                   let t := match stringify x with Some t => t | None => "null" end in
                   match rest with
                   | [] => t
                   | _ => t ++ "," ++ items rest
                   end
               end) l ++ "]")
  | JObj fields =>
      Some ("{" ++
            (fix props (fs : list (string * json)) (first : bool) : string :=
               match fs with
               | [] => ""
               | (k, x) :: rest =>
                   match stringify x with
                   | Some t =>
                       (if first then "" else ",") ++ quote k ++ ":" ++ t ++ props rest false
                   | None => props rest first
                   end
               end) fields true ++ "}")
  end.

(** The names of the properties of a payload. *)
Definition keys (v : json) : list string :=
  match v with
  | JObj fields => map fst fields
  | _ => []
  end.

End Wire.

(* ------------------------------------------------------------------ *)
(** ** The stages of an external search *)

Inductive stage : Type :=
| Normalizing
| Hashing
| Signing
| AwaitingResponse.

(** The lines [SearchPage.handleSearch] has written when [s] starts. *)
Definition progress (s : stage) : list string :=
  match s with
  | Normalizing =>
      ["Preparing search..."; "Normalizing keyword..."]
  | Hashing =>
      ["Preparing search..."; "Normalizing keyword..."; "Hashing keyword (SHA256)..."]
  | Signing =>
      ["Preparing search..."; "Normalizing keyword..."; "Hashing keyword (SHA256)...";
       "Signing hash with RSA private key..."]
  | AwaitingResponse =>
      ["Preparing search..."; "Normalizing keyword..."; "Hashing keyword (SHA256)...";
       "Signing hash with RSA private key..."; "Sending request to /api/search/external/"]
  end.

(** The body [SearchPage.handleSearch] posts for an external search. *)
Definition external_payload (id keywordHash signature : string) : json :=
  JObj [("auditor_id", JStr id);
        ("keyword_hash", JStr keywordHash);
        ("signature", JStr signature)].

(** Stage [s] of the external search of [q] is the first to fail, with [e]. *)
Definition fails_at (E : Env) (p : SearchPage.Props) (q : string) (sent : list call)
    (s : stage) (e : thrown) : Prop :=
  match s with
  | Normalizing => normalizeKeyword E q = inl e
  | Hashing =>
      exists n, normalizeKeyword E q = inr n /\ sha256Hex E n = inl e
  | Signing =>
      exists n h, normalizeKeyword E q = inr n /\ sha256Hex E n = inr h /\
                  signHashHex E h (SearchPage.privateKey p) = inl e
  | AwaitingResponse =>
      exists n h g a,
        normalizeKeyword E q = inr n /\ sha256Hex E n = inr h /\
        signHashHex E h (SearchPage.privateKey p) = inr g /\
        SearchPage.auditor p = Some a /\
        respond E sent (ApiPost "/api/search/external/"
                                (external_payload (auditor_id a) h g)) = inl e
  end.

(** What the [catch] block of [SearchPage.handleSearch] adds to the log for
    [e]: nothing when reading [e.response] throws, else one line. *)
Definition catch_lines (E : Env) (e : thrown) : list string :=
  match err_get E e "response" with
  | inl _ => []
  | inr response =>
      let error := get_opt (get_opt response "data") "error" in
      if truthy error
      then ["Error: " ++ to_string (get_opt error "code")]
      else ["Unknown error occurred"]
  end.

(** The stage a progress line announces. *)
Definition stage_of_line (line : string) : option stage :=
  if line =? "Normalizing keyword..." then Some Normalizing
  else if line =? "Hashing keyword (SHA256)..." then Some Hashing
  else if line =? "Signing hash with RSA private key..." then Some Signing
  else if line =? "Sending request to /api/search/external/" then Some AwaitingResponse
  else None.

(** The stage of the last progress line of a log. *)
Definition last_stage (lines : list string) : option stage :=
  fold_left (fun acc line =>
               match stage_of_line line with
               | Some s => Some s
               | None => acc
               end) lines None.

(** Every line [SearchPage.handleSearch] writes as a literal. *)
Definition fixed_lines : list string :=
  ["Preparing search..."; "Generating HMAC trapdoor...";
   "Sending request to /api/search/internal/"; "Internal search complete ✔";
   "No auditor private key found"; "No auditor identity found";
   "Normalizing keyword..."; "Hashing keyword (SHA256)...";
   "Signing hash with RSA private key..."; "Sending request to /api/search/external/";
   "Encrypted results received ✔"; "Unknown error occurred"].

(** Every line [ServiceSearchPage.handleSearch] writes as a literal. *)
Definition service_fixed_lines : list string :=
  ["Preparing search..."; "Generating HMAC trapdoor..."; "Sending to SSE engine...";
   "Decrypting records..."; "Internal search complete ✔"; "No auditor key found";
   "Hashing keyword (SHA256)..."; "Signing hash (RSA)..."; "Matching encrypted index...";
   "External search complete ✔"].

(** The world [SearchPage.handleSearch] leaves once a started search has
    settled: the query and the field are kept, loading is off. *)
Definition settled (w : World SearchPage.State) (lines : list string)
    (calls : list call) (errs : list thrown) (results meta : json)
  : World SearchPage.State :=
  Build_World
    {| SearchPage.query := SearchPage.query (ui w);
       SearchPage.field := SearchPage.field (ui w);
       SearchPage.results := results;
       SearchPage.meta := meta;
       SearchPage.logs := lines;
       SearchPage.loading := false |}
    (net w ++ calls) (console w ++ errs) (alerts w).

(** ... after a failure [e] that found the log at [lines]. *)
Definition failed (E : Env) (w : World SearchPage.State) (lines : list string)
    (calls : list call) (e : thrown) : World SearchPage.State :=
  settled w (lines ++ catch_lines E e) calls [e] (JArr []) JNull.

(** [res.data.data?.results || []] and [res.data.meta]. *)
Definition read_response (res : json) : thrown + json * json :=
  match get res "data" with
  | inl e => inl e
  | inr body =>
      match get body "data" with
      | inl e => inl e
      | inr data => inr (or_else (get_opt data "results") (JArr []), get_opt body "meta")
      end
  end.

(** The lines and the body of an internal search of [SearchPage]. *)
Definition internal_progress : list string :=
  ["Preparing search..."; "Generating HMAC trapdoor...";
   "Sending request to /api/search/internal/"].

Definition internal_payload (field query : string) : json :=
  JObj [(field, JStr query)].

(** The same for [ServiceSearchPage]. *)
Definition service_settled (w : World ServiceSearchPage.State) (lines : list string)
    (calls : list call) (errs : list thrown) (results meta : json)
  : World ServiceSearchPage.State :=
  Build_World
    {| ServiceSearchPage.query := ServiceSearchPage.query (ui w);
       ServiceSearchPage.results := results;
       ServiceSearchPage.meta := meta;
       ServiceSearchPage.logs := lines;
       ServiceSearchPage.loading := false |}
    (net w ++ calls) (console w ++ errs) (alerts w).

Definition service_catch_lines (E : Env) (e : thrown) : list string :=
  match err_get E e "message" with
  | inl _ => []
  | inr message => ["Error: " ++ to_string message]
  end.

Definition service_failed (E : Env) (w : World ServiceSearchPage.State)
    (lines : list string) (calls : list call) (e : thrown)
  : World ServiceSearchPage.State :=
  service_settled w (lines ++ service_catch_lines E e) calls [e] (JArr []) JNull.

(** [res.data.results || []] and [res.meta]. *)
Definition read_service_response (res : json) : thrown + json * json :=
  match get res "data" with
  | inl e => inl e
  | inr data =>
      match get data "results" with
      | inl e => inl e
      | inr rs => inr (or_else rs (JArr []), get_opt res "meta")
      end
  end.

(** The address [MetricsPage.fetchMetrics] asks. *)
Definition metrics_url (p : MetricsPage.Props) : string :=
  if MetricsPage.isInternal p then "/api/metrics/internal/" else "/api/metrics/external/".

(** [res.data?.data || {}] *)
Definition read_metrics (res : json) : thrown + json :=
  match get res "data" with
  | inl e => inl e
  | inr body => inr (or_else (get_opt body "data") (JObj []))
  end.

(* ------------------------------------------------------------------ *)
(** ** Sample collaborators and inputs *)

Module Demo.

Definition meta_of (total : Z) : json :=
  JObj [("total_matches", JNum total); ("returned_count", JNum 1);
        ("execution_time_ms", JNum 12); ("truncated", JBool false)].

Definition record : json := JObj [("name", JStr "Alice"); ("pan", JStr "ABCDE1234F")].

(** An answer of the api (the body under [data]) and of a search service. *)
Definition api_answer (total : Z) : json :=
  JObj [("data", JObj [("data", JObj [("results", JArr [record])]);
                       ("meta", meta_of total)])].
Definition service_answer (total : Z) : json :=
  JObj [("data", JObj [("results", JArr [record])]); ("meta", meta_of total)].

Definition answer (total : Z) (sent : list call) (c : call) : thrown + json :=
  match c with
  | InternalSearch _ | ExternalSearch _ _ => inr (service_answer total)
  | _ => inr (api_answer total)
  end.

(** Everything works; the service reports [total] matches. *)
Definition env (total : Z) : Env := {|
  normalizeKeyword := fun s => inr s;
  sha256Hex := fun _ => inr "9f86d081884c7d65";
  signHashHex := fun _ _ => inr "5b1d3c0a";
  respond := answer total;
  localStorage_getItem := fun _ => Some "PRIVATE-KEY";
  type_error_message := "Cannot read properties of undefined"
|}.

Definition failure : thrown := Raised (JObj [("message", JStr "operation failed")]).

Definition hash_fails : Env := {|
  normalizeKeyword := fun s => inr s;
  sha256Hex := fun _ => inl failure;
  signHashHex := fun _ _ => inr "5b1d3c0a";
  respond := answer 3;
  localStorage_getItem := fun _ => Some "PRIVATE-KEY";
  type_error_message := "Cannot read properties of undefined"
|}.

Definition sign_fails : Env := {|
  normalizeKeyword := fun s => inr s;
  sha256Hex := fun _ => inr "9f86d081884c7d65";
  signHashHex := fun _ _ => inl failure;
  respond := answer 3;
  localStorage_getItem := fun _ => Some "PRIVATE-KEY";
  type_error_message := "Cannot read properties of undefined"
|}.

(** The service answers [{error: {code, detail}}] with status 403. *)
Definition rejection : thrown :=
  Raised (JObj [("message", JStr "Request failed with status code 403");
                ("response",
                 JObj [("status", JNum 403);
                       ("data", JObj [("error", JObj [("code", JStr "INVALID_SIGNATURE");
                                                      ("detail", JStr "key v2 expected")])])])]).

Definition rejecting : Env := {|
  normalizeKeyword := fun s => inr s;
  sha256Hex := fun _ => inr "9f86d081884c7d65";
  signHashHex := fun _ _ => inr "5b1d3c0a";
  respond := fun _ _ => inl rejection;
  localStorage_getItem := fun _ => Some "PRIVATE-KEY";
  type_error_message := "Cannot read properties of undefined"
|}.

(** The api answers with [value]. *)
Definition answering (value : json) : Env := {|
  normalizeKeyword := fun s => inr s;
  sha256Hex := fun _ => inr "9f86d081884c7d65";
  signHashHex := fun _ _ => inr "5b1d3c0a";
  respond := fun _ _ => inr value;
  localStorage_getItem := fun _ => Some "PRIVATE-KEY";
  type_error_message := "Cannot read properties of undefined"
|}.

Definition no_stored_key : Env := {|
  normalizeKeyword := fun s => inr s;
  sha256Hex := fun _ => inr "9f86d081884c7d65";
  signHashHex := fun _ _ => inr "5b1d3c0a";
  respond := answer 3;
  localStorage_getItem := fun _ => None;
  type_error_message := "Cannot read properties of undefined"
|}.

Definition A1 : Auditor := {| auditor_id := "A1"; name := "Asha"; active_key_version := 1 |}.

Definition external : SearchPage.Props :=
  {| SearchPage.role := Some "external"; SearchPage.auditor := Some A1;
     SearchPage.privateKey := Some "PRIVATE-KEY" |}.
Definition external_no_key : SearchPage.Props :=
  {| SearchPage.role := Some "external"; SearchPage.auditor := Some A1;
     SearchPage.privateKey := None |}.
Definition external_no_identity : SearchPage.Props :=
  {| SearchPage.role := Some "external"; SearchPage.auditor := None;
     SearchPage.privateKey := Some "PRIVATE-KEY" |}.
Definition external_bare : SearchPage.Props :=
  {| SearchPage.role := Some "external"; SearchPage.auditor := None;
     SearchPage.privateKey := None |}.
Definition internal : SearchPage.Props :=
  {| SearchPage.role := Some "internal"; SearchPage.auditor := None;
     SearchPage.privateKey := None |}.

(** The page after the user typed [q]. *)
Definition typed (q : string) : World SearchPage.State :=
  exec (SearchPage.setQuery q) (mount SearchPage.initial).
Definition service_typed (q : string) : World ServiceSearchPage.State :=
  exec (ServiceSearchPage.setQuery q) (mount ServiceSearchPage.initial).

(** The page after an external search for alice@example.com that the
    service answered with [total] matches. *)
Definition shown (total : Z) : SearchPage.State :=
  ui (exec (SearchPage.handleSearch (env total) external) (typed "alice@example.com")).
Definition service_external : ServiceSearchPage.Props :=
  {| ServiceSearchPage.role := Some "external" |}.
Definition service_shown (total : Z) : ServiceSearchPage.State :=
  ui (exec (ServiceSearchPage.handleSearch (env total) service_external)
           (service_typed "alice@example.com")).

End Demo.

(* ------------------------------------------------------------------ *)
(** * Proofs *)

(** ** Running the handlers *)

Lemma truthy_query (q : string) : q <> "" -> truthy (JStr q) = true.
Proof.
  intros H; simpl. destruct (String.eqb_spec q ""); [contradiction|reflexivity].
Qed.

Ltac unfold_run :=
  unfold exec, SearchPage.handleSearch, ServiceSearchPage.handleSearch,
    SearchPage.on_error, ServiceSearchPage.on_error,
    try_catch_finally, bind, when, return_, ret, lift, delay, perform, console_error,
    SearchPage.log, SearchPage.setLogs, SearchPage.setLoading, SearchPage.setResults,
    SearchPage.setMeta, ServiceSearchPage.log, ServiceSearchPage.setLogs,
    ServiceSearchPage.setLoading, ServiceSearchPage.setResults,
    ServiceSearchPage.setMeta, modify.

(** C2: an external search without a private key stops at once with the
    missing-key line, which differs from the missing-identity line, and sends
    nothing; likewise in the service-based page when no key is stored. *)
Theorem C2_missing_private_key
    (E : Env) (p : SearchPage.Props) (w : World SearchPage.State)
    (p' : ServiceSearchPage.Props) (w' : World ServiceSearchPage.State)
    (Hq : SearchPage.query (ui w) <> "")
    (Hrole : SearchPage.role p = Some "external")
    (Hkey : present (SearchPage.privateKey p) = false)
    (Hq' : ServiceSearchPage.query (ui w') <> "")
    (Hrole' : ServiceSearchPage.role p' = Some "external")
    (Hkey' : present (localStorage_getItem E "auditor_private_key") = false) :
  let after := exec (SearchPage.handleSearch E p) w in
  let after' := exec (ServiceSearchPage.handleSearch E p') w' in
  (SearchPage.logs (ui after) = ["Preparing search..."; "No auditor private key found"]
   /\ SearchPage.loading (ui after) = false
   /\ net after = net w
   /\ "No auditor private key found" <> "No auditor identity found")
  /\
  (ServiceSearchPage.logs (ui after') = ["Preparing search..."; "No auditor key found"]
   /\ ServiceSearchPage.loading (ui after') = false
   /\ net after' = net w').
Proof.
  unfold_run. rewrite (truthy_query _ Hq), (truthy_query _ Hq'), Hrole, Hrole', Hkey, Hkey'.
  simpl. repeat split; discriminate.
Qed.

Lemma C2_missing_private_key_witness :
  SearchPage.logs
    (ui (exec (SearchPage.handleSearch Demo.no_stored_key Demo.external_no_key)
              (Demo.typed "alice")))
  = ["Preparing search..."; "No auditor private key found"].
Proof.
  destruct (C2_missing_private_key Demo.no_stored_key Demo.external_no_key
              (Demo.typed "alice")
              {| ServiceSearchPage.role := Some "external" |}
              (Demo.service_typed "alice")) as [[H _] _];
    [discriminate | reflexivity | reflexivity | discriminate | reflexivity
    | reflexivity | exact H].
Defined.

Lemma empty_query_run
    (E : Env) (p : SearchPage.Props) (w : World SearchPage.State)
    (Hq : SearchPage.query (ui w) = "") :
  SearchPage.handleSearch E p w = (Return, w).
Proof. unfold_run. now rewrite Hq. Qed.

Lemma service_empty_query_run
    (E : Env) (p : ServiceSearchPage.Props) (w : World ServiceSearchPage.State)
    (Hq : ServiceSearchPage.query (ui w) = "") :
  ServiceSearchPage.handleSearch E p w = (Return, w).
Proof. unfold_run. now rewrite Hq. Qed.

(** C9: with an empty query [handleSearch] returns at once, for every role
    and in both pages: state, log and the list of calls are untouched. *)
Theorem C9_empty_query_is_noop
    (E : Env) (p : SearchPage.Props) (w : World SearchPage.State)
    (p' : ServiceSearchPage.Props) (w' : World ServiceSearchPage.State)
    (Hq : SearchPage.query (ui w) = "")
    (Hq' : ServiceSearchPage.query (ui w') = "") :
  SearchPage.handleSearch E p w = (Return, w)
  /\ ServiceSearchPage.handleSearch E p' w' = (Return, w').
Proof.
  unfold_run. now rewrite Hq, Hq'.
Qed.

Lemma C9_empty_query_is_noop_witness :
  SearchPage.handleSearch (Demo.env 3) Demo.external (mount SearchPage.initial)
  = (Return, mount SearchPage.initial).
Proof.
  destruct (C9_empty_query_is_noop (Demo.env 3) Demo.external (mount SearchPage.initial)
              {| ServiceSearchPage.role := Some "internal" |}
              (mount ServiceSearchPage.initial)) as [H _];
    [reflexivity | reflexivity | exact H].
Defined.

(** C3, as amended: an external search with a private key and without an
    auditor identity stops at once with the missing-identity line and sends
    nothing. *)
Theorem C3_missing_identity
    (E : Env) (p : SearchPage.Props) (w : World SearchPage.State)
    (Hq : SearchPage.query (ui w) <> "")
    (Hrole : SearchPage.role p = Some "external")
    (Hkey : present (SearchPage.privateKey p) = true)
    (Hid : SearchPage.auditor p = None) :
  let after := exec (SearchPage.handleSearch E p) w in
  SearchPage.logs (ui after) = ["Preparing search..."; "No auditor identity found"]
  /\ SearchPage.loading (ui after) = false
  /\ net after = net w
  /\ "No auditor identity found" <> "No auditor private key found".
Proof.
  unfold_run. rewrite (truthy_query _ Hq), Hrole, Hkey, Hid.
  simpl. repeat split; discriminate.
Qed.

Lemma C3_missing_identity_witness :
  SearchPage.logs
    (ui (exec (SearchPage.handleSearch (Demo.env 3) Demo.external_no_identity)
              (Demo.typed "alice")))
  = ["Preparing search..."; "No auditor identity found"].
Proof.
  destruct (C3_missing_identity (Demo.env 3) Demo.external_no_identity
              (Demo.typed "alice")) as [H _];
    [discriminate | reflexivity | reflexivity | reflexivity | exact H].
Defined.

(** C3 as stated fails: with neither identity nor key the search reports the
    missing key, and the missing-identity line is not written. *)
Lemma C3_counterexample :
  SearchPage.auditor Demo.external_bare = None
  /\ SearchPage.logs
       (ui (exec (SearchPage.handleSearch (Demo.env 3) Demo.external_bare)
                 (Demo.typed "alice")))
     = ["Preparing search..."; "No auditor private key found"]
  /\ ~ In "No auditor identity found"
       (SearchPage.logs
          (ui (exec (SearchPage.handleSearch (Demo.env 3) Demo.external_bare)
                    (Demo.typed "alice")))).
Proof.
  repeat split. vm_compute. intros [H|[H|[]]]; discriminate.
Qed.

(** ** The external search of SearchPage, path by path *)

Lemma get_truthy (v : json) (k : string) :
  truthy v = true -> get v k = inr (get_opt v k).
Proof. destruct v; simpl; try discriminate; reflexivity. Qed.

Lemma get_body (v : json) (k k' : string) (x : json) :
  get v k = inr x -> get v k' = inr (get_opt v k').
Proof. destruct v; simpl; try discriminate; reflexivity. Qed.

Ltac settle :=
  unfold failed, settled, catch_lines; simpl;
  rewrite ?app_nil_r;
  repeat match goal with
         | |- context [err_get ?E ?e ?k] => destruct (err_get E e k) eqn:?; simpl
         | |- context [truthy ?v] =>
             let T := fresh "T" in
             destruct (truthy v) eqn:T; simpl;
             [rewrite ?(get_truthy _ "code" T); simpl|]
         end;
  rewrite ?app_nil_r; try reflexivity.

Lemma external_run
    (E : Env) (p : SearchPage.Props) (w : World SearchPage.State) (a : Auditor)
    (Hq : SearchPage.query (ui w) <> "")
    (Hrole : SearchPage.role p = Some "external")
    (Hkey : present (SearchPage.privateKey p) = true)
    (Hid : SearchPage.auditor p = Some a) :
  exec (SearchPage.handleSearch E p) w =
  match normalizeKeyword E (SearchPage.query (ui w)) with
  | inl e => failed E w (progress Normalizing) [] e
  | inr n =>
    match sha256Hex E n with
    | inl e => failed E w (progress Hashing) [] e
    | inr h =>
      match signHashHex E h (SearchPage.privateKey p) with
      | inl e => failed E w (progress Signing) [] e
      | inr g =>
        let c := ApiPost "/api/search/external/" (external_payload (auditor_id a) h g) in
        match respond E (net w) c with
        | inl e => failed E w (progress AwaitingResponse) [c] e
        | inr res =>
          match read_response res with
          | inl e => failed E w (progress AwaitingResponse) [c] e
          | inr (rs, m) =>
              settled w (progress AwaitingResponse ++ ["Encrypted results received ✔"])
                      [c] [] rs m
          end
        end
      end
    end
  end.
Proof.
  unfold_run. rewrite (truthy_query _ Hq), Hrole, Hkey, Hid. simpl.
  destruct (normalizeKeyword E _) as [e|n]; simpl; [settle|].
  destruct (sha256Hex E n) as [e|h]; simpl; [settle|].
  destruct (signHashHex E h _) as [e|g]; simpl; [settle|].
  unfold external_payload.
  destruct (respond E (net w) _) as [e|res]; simpl; [settle|].
  unfold read_response.
  destruct (get res "data") as [e|body] eqn:Hb; simpl; [settle|].
  destruct (get body "data") as [e|data] eqn:Hd; simpl; [settle|].
  rewrite (get_body _ _ "meta" _ Hd). simpl. settle.
Qed.

Lemma internal_run
    (E : Env) (p : SearchPage.Props) (w : World SearchPage.State)
    (Hq : SearchPage.query (ui w) <> "")
    (Hrole : SearchPage.role p = Some "internal") :
  exec (SearchPage.handleSearch E p) w =
  let c := ApiPost "/api/search/internal/"
                   (internal_payload (SearchPage.field (ui w)) (SearchPage.query (ui w))) in
  match respond E (net w) c with
  | inl e => failed E w internal_progress [c] e
  | inr res =>
      match read_response res with
      | inl e => failed E w internal_progress [c] e
      | inr (rs, m) =>
          settled w (internal_progress ++ ["Internal search complete ✔"]) [c] [] rs m
      end
  end.
Proof.
  unfold_run. rewrite (truthy_query _ Hq), Hrole. simpl.
  unfold internal_payload.
  destruct (respond E (net w) _) as [e|res]; simpl; [settle|].
  unfold read_response.
  destruct (get res "data") as [e|body] eqn:Hb; simpl; [settle|].
  destruct (get body "data") as [e|data] eqn:Hd; simpl; [settle|].
  rewrite (get_body _ _ "meta" _ Hd). simpl. settle.
Qed.

Lemma other_role_run
    (E : Env) (p : SearchPage.Props) (w : World SearchPage.State)
    (Hq : SearchPage.query (ui w) <> "")
    (Hint : role_is (SearchPage.role p) "internal" = false)
    (Hext : role_is (SearchPage.role p) "external" = false) :
  exec (SearchPage.handleSearch E p) w
  = settled w ["Preparing search..."] [] [] (JArr []) JNull.
Proof.
  unfold_run. rewrite (truthy_query _ Hq), Hint, Hext. simpl. settle.
Qed.

Lemma missing_key_run
    (E : Env) (p : SearchPage.Props) (w : World SearchPage.State)
    (Hq : SearchPage.query (ui w) <> "")
    (Hrole : SearchPage.role p = Some "external")
    (Hkey : present (SearchPage.privateKey p) = false) :
  exec (SearchPage.handleSearch E p) w
  = settled w ["Preparing search..."; "No auditor private key found"] [] [] (JArr []) JNull.
Proof.
  unfold_run. rewrite (truthy_query _ Hq), Hrole, Hkey. simpl. settle.
Qed.

Lemma missing_identity_run
    (E : Env) (p : SearchPage.Props) (w : World SearchPage.State)
    (Hq : SearchPage.query (ui w) <> "")
    (Hrole : SearchPage.role p = Some "external")
    (Hkey : present (SearchPage.privateKey p) = true)
    (Hid : SearchPage.auditor p = None) :
  exec (SearchPage.handleSearch E p) w
  = settled w ["Preparing search..."; "No auditor identity found"] [] [] (JArr []) JNull.
Proof.
  unfold_run. rewrite (truthy_query _ Hq), Hrole, Hkey, Hid. simpl. settle.
Qed.

(** ** The service-based page, path by path *)

Ltac service_settle :=
  unfold service_failed, service_settled, service_catch_lines; simpl;
  rewrite ?app_nil_r;
  repeat match goal with
         | |- context [err_get ?E ?e ?k] => destruct (err_get E e k) eqn:?; simpl
         end;
  rewrite ?app_nil_r; try reflexivity.

Lemma service_internal_run
    (E : Env) (p : ServiceSearchPage.Props) (w : World ServiceSearchPage.State)
    (Hq : ServiceSearchPage.query (ui w) <> "")
    (Hrole : ServiceSearchPage.role p = Some "internal") :
  exec (ServiceSearchPage.handleSearch E p) w =
  let lines := ["Preparing search..."; "Generating HMAC trapdoor...";
                "Sending to SSE engine..."] in
  let c := InternalSearch (JObj [("keyword", JStr (ServiceSearchPage.query (ui w)))]) in
  match respond E (net w) c with
  | inl e => service_failed E w lines [c] e
  | inr res =>
      match read_service_response res with
      | inl e => service_failed E w (lines ++ ["Decrypting records..."]) [c] e
      | inr (rs, m) =>
          service_settled w (lines ++ ["Decrypting records..."; "Internal search complete ✔"])
                          [c] [] rs m
      end
  end.
Proof.
  unfold_run. rewrite (truthy_query _ Hq), Hrole. simpl.
  destruct (respond E (net w) _) as [e|res]; simpl; [service_settle|].
  unfold read_service_response.
  destruct (get res "data") as [e|data] eqn:Hb; simpl; [service_settle|].
  destruct (get data "results") as [e|rs] eqn:Hd; simpl; [service_settle|].
  rewrite (get_body _ _ "meta" _ Hb). simpl. service_settle.
Qed.

Lemma service_external_run
    (E : Env) (p : ServiceSearchPage.Props) (w : World ServiceSearchPage.State)
    (Hq : ServiceSearchPage.query (ui w) <> "")
    (Hrole : ServiceSearchPage.role p = Some "external") :
  exec (ServiceSearchPage.handleSearch E p) w =
  let key := localStorage_getItem E "auditor_private_key" in
  if present key
  then
    let lines := ["Preparing search..."; "Hashing keyword (SHA256)...";
                  "Signing hash (RSA)..."] in
    let c := ExternalSearch (ServiceSearchPage.query (ui w)) key in
    match respond E (net w) c with
    | inl e => service_failed E w lines [c] e
    | inr res =>
        match read_service_response res with
        | inl e => service_failed E w (lines ++ ["Matching encrypted index..."]) [c] e
        | inr (rs, m) =>
            service_settled w (lines ++ ["Matching encrypted index...";
                                         "External search complete ✔"])
                            [c] [] rs m
        end
    end
  else service_settled w ["Preparing search..."; "No auditor key found"] [] []
                       (JArr []) JNull.
Proof.
  unfold_run. rewrite (truthy_query _ Hq), Hrole. simpl.
  destruct (present _); simpl; [|service_settle].
  destruct (respond E (net w) _) as [e|res]; simpl; [service_settle|].
  unfold read_service_response.
  destruct (get res "data") as [e|data] eqn:Hb; simpl; [service_settle|].
  destruct (get data "results") as [e|rs] eqn:Hd; simpl; [service_settle|].
  rewrite (get_body _ _ "meta" _ Hb). simpl. service_settle.
Qed.

Lemma service_other_role_run
    (E : Env) (p : ServiceSearchPage.Props) (w : World ServiceSearchPage.State)
    (Hq : ServiceSearchPage.query (ui w) <> "")
    (Hint : role_is (ServiceSearchPage.role p) "internal" = false)
    (Hext : role_is (ServiceSearchPage.role p) "external" = false) :
  exec (ServiceSearchPage.handleSearch E p) w
  = service_settled w ["Preparing search..."] [] [] (JArr []) JNull.
Proof.
  unfold_run. rewrite (truthy_query _ Hq), Hint, Hext. simpl. service_settle.
Qed.

(** ** What a started search leaves in the log and on the console *)

Ltac in_list := simpl; repeat (first [left; reflexivity | right]).
Ltac all_in := repeat (constructor; [in_list|]); try constructor.

Lemma role_cases (r : option string) :
  r = Some "internal" \/ r = Some "external"
  \/ (role_is r "internal" = false /\ role_is r "external" = false).
Proof.
  destruct r as [r|]; simpl; [|now right; right].
  destruct (String.eqb_spec r "internal"); [left; now subst|].
  destruct (String.eqb_spec r "external"); [right; left; now subst|].
  now right; right.
Qed.

(** Either nothing was caught and every line is a literal of the handler, or
    exactly one error went to the console and the log is literal lines
    followed by what the [catch] block wrote for that error. *)
Lemma search_outcome
    (E : Env) (p : SearchPage.Props) (w : World SearchPage.State)
    (Hq : SearchPage.query (ui w) <> "") :
  let after := exec (SearchPage.handleSearch E p) w in
  (console after = console w
   /\ Forall (fun l => In l fixed_lines) (SearchPage.logs (ui after)))
  \/ exists e lines,
       console after = (console w ++ [e])%list
       /\ SearchPage.logs (ui after) = (lines ++ catch_lines E e)%list
       /\ Forall (fun l => In l fixed_lines) lines.
Proof.
  cbv zeta.
  destruct (role_cases (SearchPage.role p)) as [Hr|[Hr|[Hi He]]].
  - rewrite (internal_run E p w Hq Hr). cbv zeta.
    destruct (respond E (net w) _) as [e|res].
    { right. exists e, internal_progress. repeat split. all_in. }
    destruct (read_response res) as [e|[rs m]].
    { right. exists e, internal_progress. repeat split. all_in. }
    left. simpl. rewrite app_nil_r. split; [reflexivity|all_in].
  - destruct (present (SearchPage.privateKey p)) eqn:Hkey.
    2:{ rewrite (missing_key_run E p w Hq Hr Hkey). left. simpl.
        rewrite app_nil_r. split; [reflexivity|all_in]. }
    destruct (SearchPage.auditor p) as [a|] eqn:Hid.
    2:{ rewrite (missing_identity_run E p w Hq Hr Hkey Hid). left. simpl.
        rewrite app_nil_r. split; [reflexivity|all_in]. }
    rewrite (external_run E p w a Hq Hr Hkey Hid).
    destruct (normalizeKeyword E _) as [e|n].
    { right. exists e, (progress Normalizing). repeat split. all_in. }
    destruct (sha256Hex E n) as [e|h].
    { right. exists e, (progress Hashing). repeat split. all_in. }
    destruct (signHashHex E h _) as [e|g].
    { right. exists e, (progress Signing). repeat split. all_in. }
    cbv zeta.
    destruct (respond E (net w) _) as [e|res].
    { right. exists e, (progress AwaitingResponse). repeat split. all_in. }
    destruct (read_response res) as [e|[rs m]].
    { right. exists e, (progress AwaitingResponse). repeat split. all_in. }
    left. simpl. rewrite app_nil_r. split; [reflexivity|all_in].
  - rewrite (other_role_run E p w Hq Hi He). left. simpl.
    rewrite app_nil_r. split; [reflexivity|all_in].
Qed.

Lemma service_search_outcome
    (E : Env) (p : ServiceSearchPage.Props) (w : World ServiceSearchPage.State)
    (Hq : ServiceSearchPage.query (ui w) <> "") :
  let after := exec (ServiceSearchPage.handleSearch E p) w in
  (console after = console w
   /\ Forall (fun l => In l service_fixed_lines) (ServiceSearchPage.logs (ui after)))
  \/ exists e lines,
       console after = (console w ++ [e])%list
       /\ ServiceSearchPage.logs (ui after) = (lines ++ service_catch_lines E e)%list
       /\ Forall (fun l => In l service_fixed_lines) lines.
Proof.
  cbv zeta.
  destruct (role_cases (ServiceSearchPage.role p)) as [Hr|[Hr|[Hi He]]].
  - rewrite (service_internal_run E p w Hq Hr). cbv zeta.
    destruct (respond E (net w) _) as [e|res].
    { right. eexists e, _. repeat split. all_in. }
    destruct (read_service_response res) as [e|[rs m]].
    { right. eexists e, _. repeat split. all_in. }
    left. simpl. rewrite app_nil_r. split; [reflexivity|all_in].
  - rewrite (service_external_run E p w Hq Hr). cbv zeta.
    destruct (present _).
    2:{ left. simpl. rewrite app_nil_r. split; [reflexivity|all_in]. }
    destruct (respond E (net w) _) as [e|res].
    { right. eexists e, _. repeat split. all_in. }
    destruct (read_service_response res) as [e|[rs m]].
    { right. eexists e, _. repeat split. all_in. }
    left. simpl. rewrite app_nil_r. split; [reflexivity|all_in].
  - rewrite (service_other_role_run E p w Hq Hi He). left. simpl.
    rewrite app_nil_r. split; [reflexivity|all_in].
Qed.

Lemma caught_once {A} (l : list A) (e e' : A) :
  (l ++ [e])%list = (l ++ [e'])%list -> e = e'.
Proof. intros H. apply app_inv_head in H. now inversion H. Qed.

Lemma not_caught {A} (l : list A) (e : A) : l <> (l ++ [e])%list.
Proof.
  intros H. apply (f_equal (@List.length A)) in H.
  rewrite length_app in H. simpl in H. lia.
Qed.

Lemma last_stage_failed (E : Env) (s : stage) (e : thrown) :
  last_stage (progress s ++ catch_lines E e) = Some s.
Proof.
  unfold catch_lines.
  destruct (err_get E e "response") as [|response];
    [|destruct (truthy _)]; destruct s; reflexivity.
Qed.

(* ------------------------------------------------------------------ *)
(** ** The claims *)

(** C1, as amended: when an external search of SearchPage sends anything, it
    sends one POST to /api/search/external/ whose body has exactly the fields
    auditor_id, keyword_hash and signature, holding the auditor's id, the
    hash of the normalized query and the signature of that hash; the query
    is not a field of the body. *)
Theorem C1_external_payload
    (E : Env) (p : SearchPage.Props) (w : World SearchPage.State)
    (Hrole : SearchPage.role p = Some "external") :
  let after := exec (SearchPage.handleSearch E p) w in
  net after = net w
  \/ exists a n h g,
       SearchPage.auditor p = Some a
       /\ normalizeKeyword E (SearchPage.query (ui w)) = inr n
       /\ sha256Hex E n = inr h
       /\ signHashHex E h (SearchPage.privateKey p) = inr g
       /\ net after
          = (net w ++ [ApiPost "/api/search/external/"
                               (JObj [("auditor_id", JStr (auditor_id a));
                                      ("keyword_hash", JStr h);
                                      ("signature", JStr g)])])%list
       /\ Wire.keys (JObj [("auditor_id", JStr (auditor_id a));
                           ("keyword_hash", JStr h);
                           ("signature", JStr g)])
          = ["auditor_id"; "keyword_hash"; "signature"].
Proof.
  cbv zeta.
  destruct (String.eqb_spec (SearchPage.query (ui w)) "") as [Hq|Hq].
  { left. unfold exec.
    now rewrite (empty_query_run E p w Hq). }
  destruct (present (SearchPage.privateKey p)) eqn:Hkey.
  2:{ left. rewrite (missing_key_run E p w Hq Hrole Hkey). simpl. apply app_nil_r. }
  destruct (SearchPage.auditor p) as [a|] eqn:Hid.
  2:{ left. rewrite (missing_identity_run E p w Hq Hrole Hkey Hid). simpl.
      apply app_nil_r. }
  rewrite (external_run E p w a Hq Hrole Hkey Hid).
  destruct (normalizeKeyword E _) as [e|n]; [left; simpl; apply app_nil_r|].
  destruct (sha256Hex E n) as [e|h] eqn:Hh; [left; simpl; apply app_nil_r|].
  destruct (signHashHex E h _) as [e|g] eqn:Hg; [left; simpl; apply app_nil_r|].
  right. exists a, n, h, g. repeat split; try assumption.
  cbv zeta. destruct (respond E (net w) _) as [e|res]; [reflexivity|].
  destruct (read_response res) as [e|[rs m]]; reflexivity.
Qed.

Lemma C1_external_payload_witness :
  net (exec (SearchPage.handleSearch (Demo.env 3) Demo.external) (Demo.typed "alice"))
  = [ApiPost "/api/search/external/"
             (JObj [("auditor_id", JStr "A1");
                    ("keyword_hash", JStr "9f86d081884c7d65");
                    ("signature", JStr "5b1d3c0a")])].
Proof.
  destruct (C1_external_payload (Demo.env 3) Demo.external (Demo.typed "alice"))
    as [H|(a & n & h & g & Ha & Hn & Hh & Hg & H & _)];
    [reflexivity | vm_compute in H; discriminate H | ].
  simpl in Ha, Hn, Hh, Hg.
  injection Ha as <-. injection Hn as <-. injection Hh as <-. injection Hg as <-.
  exact H.
Defined.

(** C1 as stated fails: the auditor A1 searching for the text A1 sends a body
    whose text contains the raw query. *)
Lemma C1_counterexample :
  exists body text,
    net (exec (SearchPage.handleSearch (Demo.env 3) Demo.external) (Demo.typed "A1"))
    = [ApiPost "/api/search/external/" body]
    /\ Wire.stringify body = Some text
    /\ includes text "A1" = true.
Proof.
  exists (external_payload "A1" "9f86d081884c7d65" "5b1d3c0a").
  exists (match Wire.stringify (external_payload "A1" "9f86d081884c7d65" "5b1d3c0a")
          with Some text => text | None => "" end).
  vm_compute. repeat split.
Qed.


(** ** Rendering *)

Lemma total_matches_object (m : json) (n : Z) :
  get_opt m "total_matches" = JNum n -> truthy m = true.
Proof. destruct m; simpl; intros H; try discriminate H; reflexivity. Qed.

Lemma not_log_line (x : node) (l : list string) :
  In x (map LogLine l) -> exists t, x = LogLine t.
Proof.
  intros H. apply in_map_iff in H. destruct H as (t & <- & _). now exists t.
Qed.

Lemma render_list_records (l : list json) (empty : string) :
  render_list (JArr l) empty (fun r => Some (RecordBox r))
  = Some (match l with [] => [Paragraph empty] | _ => map RecordBox l end).
Proof.
  unfold render_list. simpl.
  assert (Hall : forall l : list json,
             fold_right (fun x acc =>
                           match Some (RecordBox x), acc with
                           | Some n, Some ns => Some (n :: ns)
                           | _, _ => None
                           end) (Some []) l = Some (map RecordBox l)).
  { induction l0 as [|y l0 IH]; simpl; [reflexivity|now rewrite IH]. }
  destruct l as [|x l]; [reflexivity|].
  cbn [List.length Z.of_nat is_zero Z.eqb]. apply Hall.
Qed.

Lemma falsy_child_text (m : json) (x : node) :
  In x (falsy_child m) -> exists t, x = TextNode t.
Proof.
  destruct m; simpl; try tauto. intros [<-|[]]. now eexists.
Qed.

(** C4, as amended: in SearchPage an external view with [total_matches = n]
    shows Match Exists as YES exactly when [n > 0] and as NO otherwise, and
    shows no result record whatever [results] holds; the service-based page
    has no such field and shows every element of [results] for every role. *)
Theorem C4_match_exists
    (p : SearchPage.Props) (s : SearchPage.State) (n : Z)
    (Hrole : SearchPage.role p = Some "external")
    (Htotal : get_opt (SearchPage.meta s) "total_matches" = JNum n) :
  (exists nodes,
     SearchPage.render p s = Some nodes
     /\ (forall v h, In (Info "Match Exists" v h) nodes <->
                     v = JStr (if (0 <? n)%Z then "YES ✔" else "NO")
                     /\ h = (if (0 <? n)%Z then "text-green-600" else "text-red-600"))
     /\ (forall r, ~ In (RecordBox r) nodes))
  /\ (forall (p' : ServiceSearchPage.Props) (s' : ServiceSearchPage.State) l nodes,
        ServiceSearchPage.results s' = JArr l ->
        ServiceSearchPage.render p' s' = Some nodes ->
        (forall r, In r l -> In (RecordBox r) nodes)
        /\ (forall label v h, ~ In (Info label v h) nodes)).
Proof.
  split.
  - pose proof (total_matches_object _ _ Htotal) as Hm.
    unfold SearchPage.render, SearchPage.Info_. rewrite Hrole, Hm, Htotal. simpl.
    eexists. split; [reflexivity|]. split.
    + intros v h. split.
      * intros H.
        repeat (destruct H as [H|H];
                [try discriminate H; try (injection H; intros; subst; now split)|]).
        apply not_log_line in H. destruct H as [t H]. discriminate H.
      * intros [-> ->]. do 6 right. now left.
    + intros r H.
      repeat (destruct H as [H|H]; [discriminate H|]).
      apply not_log_line in H. destruct H as [t H]. discriminate H.
  - intros p' s' l nodes Hres Hrender.
    unfold ServiceSearchPage.render in Hrender.
    rewrite Hres, render_list_records in Hrender.
    cbv zeta in Hrender.
    destruct (if truthy (ServiceSearchPage.meta s') then _ else _) as [ms|] eqn:Hms;
      [|discriminate Hrender].
    injection Hrender as <-.
    assert (Hplain : forall label v h, ~ In (Info label v h) ms).
    { intros label v h H.
      destruct (truthy (ServiceSearchPage.meta s')).
      - destruct (children_ok _); [|discriminate Hms].
        injection Hms as <-.
        repeat (destruct H as [H|H]; [discriminate H|]). exact H.
      - injection Hms as <-. apply falsy_child_text in H.
        destruct H as [t H]. discriminate H. }
    split.
    + intros r Hr. simpl. do 5 right. apply in_or_app. left.
      destruct l as [|x l]; [destruct Hr|]. now apply in_map.
    + intros label v h H. simpl in H.
      repeat (destruct H as [H|H]; [discriminate H|]).
      apply in_app_or in H. destruct H as [H|H].
      { destruct l as [|x l].
        - destruct H as [H|[]]. discriminate H.
        - apply in_map_iff in H. destruct H as (? & H & _). discriminate H. }
      destruct H as [H|H]; [discriminate H|].
      apply in_app_or in H. destruct H as [H|H].
      { apply not_log_line in H. destruct H as [t H]. discriminate H. }
      exact (Hplain label v h H).
Qed.

Lemma C4_match_exists_witness :
  exists nodes,
    SearchPage.render Demo.external (Demo.shown 3) = Some nodes
    /\ In (Info "Match Exists" (JStr "YES ✔") "text-green-600") nodes.
Proof.
  assert (Ht : get_opt (SearchPage.meta (Demo.shown 3)) "total_matches" = JNum 3)
    by (vm_compute; reflexivity).
  destruct (C4_match_exists Demo.external (Demo.shown 3) 3 eq_refl Ht)
    as [(nodes & Hr & Hm & _) _].
  exists nodes. split; [exact Hr|]. apply Hm. now split.
Defined.

(** C4 as stated fails on the service-based page: after an external search
    answered with no match and one record, the record is on the page. *)
Lemma C4_counterexample :
  get_opt (ServiceSearchPage.meta (Demo.service_shown 0)) "total_matches" = JNum 0
  /\ exists nodes,
       ServiceSearchPage.render Demo.service_external (Demo.service_shown 0) = Some nodes
       /\ In (RecordBox Demo.record) nodes.
Proof.
  split; [vm_compute; reflexivity|].
  exists (match ServiceSearchPage.render Demo.service_external (Demo.service_shown 0)
          with Some nodes => nodes | None => [] end).
  vm_compute. split; [reflexivity|]. do 5 right. now left.
Qed.

(** C6, as amended: the external view of SearchPage shows the value of
    [total_matches] itself, as the field Result Set Size, printed in decimal;
    the service-based page shows it as the metric Matches. *)
Theorem C6_result_count_shown
    (p : SearchPage.Props) (s : SearchPage.State) (n : Z)
    (Hrole : SearchPage.role p = Some "external")
    (Htotal : get_opt (SearchPage.meta s) "total_matches" = JNum n) :
  (exists nodes,
     SearchPage.render p s = Some nodes
     /\ In (Info "Result Set Size" (JNum n) "") nodes)
  /\ child_text (JNum n) = Some (string_of_Z n)
  /\ (forall (p' : ServiceSearchPage.Props) (s' : ServiceSearchPage.State) nodes,
        get_opt (ServiceSearchPage.meta s') "total_matches" = JNum n ->
        ServiceSearchPage.render p' s' = Some nodes ->
        In (Metric "Matches" (JNum n) "") nodes).
Proof.
  split; [|split; [reflexivity|]].
  - pose proof (total_matches_object _ _ Htotal) as Hm.
    unfold SearchPage.render, SearchPage.Info_. rewrite Hrole, Hm, Htotal. simpl.
    eexists. split; [reflexivity|]. do 7 right. now left.
  - intros p' s' nodes Ht Hrender.
    pose proof (total_matches_object _ _ Ht) as Hm.
    unfold ServiceSearchPage.render in Hrender. rewrite Hm, Ht in Hrender.
    destruct (render_list _ _ _) as [rs|]; [|discriminate Hrender].
    destruct (children_ok _); [|discriminate Hrender].
    injection Hrender as <-.
    simpl. do 5 right. apply in_or_app. right. right.
    apply in_or_app. right. right. now left.
Qed.

Lemma C6_result_count_shown_witness :
  exists nodes,
    SearchPage.render Demo.external (Demo.shown 3) = Some nodes
    /\ In (Info "Result Set Size" (JNum 3) "") nodes.
Proof.
  assert (Ht : get_opt (SearchPage.meta (Demo.shown 3)) "total_matches" = JNum 3)
    by (vm_compute; reflexivity).
  exact (proj1 (C6_result_count_shown Demo.external (Demo.shown 3) 3 eq_refl Ht)).
Defined.

(** C6 as stated fails: after an external search answered with three
    matches the page shows the number 3 as Result Set Size. *)
Lemma C6_counterexample :
  exists nodes,
    SearchPage.render Demo.external (Demo.shown 3) = Some nodes
    /\ In (Info "Result Set Size" (JNum 3) "") nodes
    /\ child_text (JNum 3) = Some "3".
Proof.
  exists (match SearchPage.render Demo.external (Demo.shown 3)
          with Some nodes => nodes | None => [] end).
  vm_compute. split; [reflexivity|]. split; [|reflexivity]. do 7 right. now left.
Qed.

(** C5, as amended: every line in the log of a started search is a literal
    of the handler, or the word Error followed by text taken from the error
    that was caught: the [code] of its structured payload in SearchPage, its
    [message] in the service-based page.  The handler puts neither the
    query nor the private key into a line. *)
Theorem C5_log_lines
    (E : Env) (p : SearchPage.Props) (w : World SearchPage.State)
    (p' : ServiceSearchPage.Props) (w' : World ServiceSearchPage.State)
    (Hq : SearchPage.query (ui w) <> "")
    (Hq' : ServiceSearchPage.query (ui w') <> "") :
  let after := exec (SearchPage.handleSearch E p) w in
  let after' := exec (ServiceSearchPage.handleSearch E p') w' in
  (forall line, In line (SearchPage.logs (ui after)) ->
     In line fixed_lines
     \/ exists e response,
          console after = (console w ++ [e])%list
          /\ err_get E e "response" = inr response
          /\ line = "Error: " ++
                    to_string (get_opt (get_opt (get_opt response "data") "error") "code"))
  /\
  (forall line, In line (ServiceSearchPage.logs (ui after')) ->
     In line service_fixed_lines
     \/ exists e message,
          console after' = (console w' ++ [e])%list
          /\ err_get E e "message" = inr message
          /\ line = "Error: " ++ to_string message).
Proof.
  cbv zeta. split; intros line Hin.
  - destruct (search_outcome E p w Hq) as [[_ Hall]|(e & lines & Hc & Hl & Hall)].
    { left. rewrite Forall_forall in Hall. now apply Hall. }
    rewrite Hl in Hin. apply in_app_or in Hin. destruct Hin as [Hin|Hin].
    { left. rewrite Forall_forall in Hall. now apply Hall. }
    unfold catch_lines in Hin.
    destruct (err_get E e "response") as [|response] eqn:Hr; [destruct Hin|].
    destruct (truthy _).
    + right. exists e, response. destruct Hin as [<-|[]]. now repeat split.
    + left. destruct Hin as [<-|[]]. in_list.
  - destruct (service_search_outcome E p' w' Hq')
      as [[_ Hall]|(e & lines & Hc & Hl & Hall)].
    { left. rewrite Forall_forall in Hall. now apply Hall. }
    rewrite Hl in Hin. apply in_app_or in Hin. destruct Hin as [Hin|Hin].
    { left. rewrite Forall_forall in Hall. now apply Hall. }
    unfold service_catch_lines in Hin.
    destruct (err_get E e "message") as [|message] eqn:Hr; [destruct Hin|].
    right. exists e, message. destruct Hin as [<-|[]]. now repeat split.
Qed.

Lemma C5_log_lines_witness :
  In "Error: INVALID_SIGNATURE" fixed_lines
  \/ exists e response,
       console (exec (SearchPage.handleSearch Demo.rejecting Demo.external)
                     (Demo.typed "alice"))
       = (console (Demo.typed "alice") ++ [e])%list
       /\ err_get Demo.rejecting e "response" = inr response
       /\ "Error: INVALID_SIGNATURE"
          = "Error: " ++
            to_string (get_opt (get_opt (get_opt response "data") "error") "code").
Proof.
  assert (Hq : SearchPage.query (ui (Demo.typed "alice")) <> "") by discriminate.
  assert (Hq' : ServiceSearchPage.query (ui (Demo.service_typed "alice")) <> "")
    by discriminate.
  assert (Hin : In "Error: INVALID_SIGNATURE"
                   (SearchPage.logs
                      (ui (exec (SearchPage.handleSearch Demo.rejecting Demo.external)
                                (Demo.typed "alice")))))
    by (vm_compute; do 5 right; now left).
  exact (proj1 (C5_log_lines Demo.rejecting Demo.external (Demo.typed "alice")
                  Demo.service_external (Demo.service_typed "alice") Hq Hq')
               _ Hin).
Defined.

(** C5 as stated fails: a search for the word auditor without a private key
    writes a line that contains the raw keyword. *)
Lemma C5_counterexample :
  SearchPage.query (ui (Demo.typed "auditor")) = "auditor"
  /\ In "No auditor private key found"
        (SearchPage.logs
           (ui (exec (SearchPage.handleSearch (Demo.env 3) Demo.external_no_key)
                     (Demo.typed "auditor"))))
  /\ includes "No auditor private key found" "auditor" = true.
Proof.
  vm_compute. repeat split. right. now left.
Qed.

(** C7, as amended: when a search of SearchPage fails with [e], a structured
    error [{error: {code}}] in [e.response.data] is reported as the word
    Error and the code alone, and an error without such a payload (a network
    failure, a failed crypto step) as Unknown error occurred; the
    service-based page reports every failure as Error and [e.message]. *)
Theorem C7_failure_line
    (E : Env) (p : SearchPage.Props) (w : World SearchPage.State) (e : thrown)
    (Hq : SearchPage.query (ui w) <> "")
    (Hcaught : console (exec (SearchPage.handleSearch E p) w) = (console w ++ [e])%list) :
  let after := exec (SearchPage.handleSearch E p) w in
  (forall response fields,
     err_get E e "response" = inr response ->
     get_opt (get_opt response "data") "error" = JObj fields ->
     exists lines,
       SearchPage.logs (ui after)
       = (lines ++ [("Error: " ++ to_string (lookup "code" fields))%string])%list
       /\ Forall (fun l => In l fixed_lines) lines)
  /\
  (forall response,
     err_get E e "response" = inr response ->
     truthy (get_opt (get_opt response "data") "error") = false ->
     exists lines,
       SearchPage.logs (ui after) = (lines ++ ["Unknown error occurred"])%list
       /\ Forall (fun l => In l fixed_lines) lines)
  /\
  (forall (p' : ServiceSearchPage.Props) (w' : World ServiceSearchPage.State) e' message,
     ServiceSearchPage.query (ui w') <> "" ->
     console (exec (ServiceSearchPage.handleSearch E p') w') = (console w' ++ [e'])%list ->
     err_get E e' "message" = inr message ->
     exists lines,
       ServiceSearchPage.logs (ui (exec (ServiceSearchPage.handleSearch E p') w'))
       = (lines ++ [("Error: " ++ to_string message)%string])%list
       /\ Forall (fun l => In l service_fixed_lines) lines).
Proof.
  cbv zeta.
  assert (Hmain : exists lines,
             SearchPage.logs (ui (exec (SearchPage.handleSearch E p) w))
             = (lines ++ catch_lines E e)%list
             /\ Forall (fun l => In l fixed_lines) lines).
  { destruct (search_outcome E p w Hq) as [[Hc _]|(e0 & lines & Hc & Hl & Hall)].
    - rewrite Hc in Hcaught. now apply not_caught in Hcaught.
    - rewrite Hc in Hcaught. apply caught_once in Hcaught. subst e0.
      now exists lines. }
  destruct Hmain as (lines & Hl & Hall).
  split; [|split].
  - intros response fields Hr Herr. exists lines. split; [|exact Hall].
    rewrite Hl. unfold catch_lines. now rewrite Hr, Herr.
  - intros response Hr Herr. exists lines. split; [|exact Hall].
    rewrite Hl. unfold catch_lines. now rewrite Hr, Herr.
  - intros p' w' e' message Hq' Hc' Hm.
    destruct (service_search_outcome E p' w' Hq')
      as [[Hc _]|(e0 & lines' & Hc & Hl' & Hall')].
    + rewrite Hc in Hc'. now apply not_caught in Hc'.
    + rewrite Hc in Hc'. apply caught_once in Hc'. subst e0.
      exists lines'. split; [|exact Hall'].
      rewrite Hl'. unfold service_catch_lines. now rewrite Hm.
Qed.

Lemma C7_failure_line_witness :
  exists lines,
    SearchPage.logs
      (ui (exec (SearchPage.handleSearch Demo.rejecting Demo.external) (Demo.typed "alice")))
    = (lines ++ ["Error: INVALID_SIGNATURE"])%list
    /\ Forall (fun l => In l fixed_lines) lines.
Proof.
  assert (Hq : SearchPage.query (ui (Demo.typed "alice")) <> "") by discriminate.
  assert (Hc : console (exec (SearchPage.handleSearch Demo.rejecting Demo.external)
                             (Demo.typed "alice"))
               = (console (Demo.typed "alice") ++ [Demo.rejection])%list)
    by (vm_compute; reflexivity).
  exact (proj1 (C7_failure_line Demo.rejecting Demo.external (Demo.typed "alice")
                  Demo.rejection Hq Hc)
               _ _ eq_refl eq_refl).
Defined.

(** C7 as stated fails on the service-based page: the structured error
    [{error: {code: INVALID_SIGNATURE}}] is reported by its message, and the
    code is not in the log. *)
Lemma C7_counterexample :
  get_opt (get_opt (get_opt (get_opt (match Demo.rejection with
                                      | Raised v => v
                                      | TypeError => JUndef
                                      end) "response") "data") "error") "code"
  = JStr "INVALID_SIGNATURE"
  /\ ServiceSearchPage.logs
       (ui (exec (ServiceSearchPage.handleSearch Demo.rejecting Demo.service_external)
                 (Demo.service_typed "alice")))
     = ["Preparing search..."; "Hashing keyword (SHA256)..."; "Signing hash (RSA)...";
        "Error: Request failed with status code 403"].
Proof.
  vm_compute. split; reflexivity.
Qed.

(** C8, as amended: when a stage of an external search fails, no later stage
    runs: the log is the progress lines up to that stage followed by what the
    [catch] block wrote, nothing is sent unless the failing stage is the
    request itself, results and meta stay cleared and loading is off.  The
    line of the [catch] block does not name the stage; the stage is the one
    announced by the last progress line of the log. *)
Theorem C8_failure_stops_the_flow
    (E : Env) (p : SearchPage.Props) (w : World SearchPage.State)
    (a : Auditor) (s : stage) (e : thrown)
    (Hq : SearchPage.query (ui w) <> "")
    (Hrole : SearchPage.role p = Some "external")
    (Hkey : present (SearchPage.privateKey p) = true)
    (Hid : SearchPage.auditor p = Some a)
    (Hfail : fails_at E p (SearchPage.query (ui w)) (net w) s e) :
  let after := exec (SearchPage.handleSearch E p) w in
  SearchPage.logs (ui after) = (progress s ++ catch_lines E e)%list
  /\ last_stage (SearchPage.logs (ui after)) = Some s
  /\ SearchPage.loading (ui after) = false
  /\ SearchPage.results (ui after) = JArr []
  /\ SearchPage.meta (ui after) = JNull
  /\ (s <> AwaitingResponse -> net after = net w)
  /\ (List.length (net after) <= List.length (net w) + 1)%nat.
Proof.
  cbv zeta. rewrite (external_run E p w a Hq Hrole Hkey Hid).
  destruct s; simpl in Hfail.
  - rewrite Hfail. simpl. rewrite app_nil_r.
    pose proof (last_stage_failed E Normalizing e) as Hl.
    repeat split; try assumption; lia.
  - destruct Hfail as (n & -> & ->). simpl. rewrite app_nil_r.
    pose proof (last_stage_failed E Hashing e) as Hl.
    repeat split; try assumption; lia.
  - destruct Hfail as (n & h & -> & -> & ->). simpl. rewrite app_nil_r.
    pose proof (last_stage_failed E Signing e) as Hl.
    repeat split; try assumption; lia.
  - destruct Hfail as (n & h & g & a' & -> & -> & -> & Ha & Hr).
    rewrite Hid in Ha. injection Ha as <-. cbv zeta. rewrite Hr. simpl.
    pose proof (last_stage_failed E AwaitingResponse e) as Hl.
    repeat split; try assumption; try congruence.
    rewrite length_app. simpl. lia.
Qed.

Lemma C8_failure_stops_the_flow_witness :
  SearchPage.logs
    (ui (exec (SearchPage.handleSearch Demo.sign_fails Demo.external) (Demo.typed "alice")))
  = (progress Signing ++ catch_lines Demo.sign_fails Demo.failure)%list.
Proof.
  assert (Hq : SearchPage.query (ui (Demo.typed "alice")) <> "") by discriminate.
  assert (Hf : fails_at Demo.sign_fails Demo.external
                 (SearchPage.query (ui (Demo.typed "alice")))
                 (net (Demo.typed "alice")) Signing Demo.failure).
  { exists "alice", "9f86d081884c7d65". repeat split. }
  exact (proj1 (C8_failure_stops_the_flow Demo.sign_fails Demo.external
                  (Demo.typed "alice") Demo.A1 Signing Demo.failure
                  Hq eq_refl eq_refl eq_refl Hf)).
Defined.

(** C8 as stated fails: a failure of the hashing stage and a failure of the
    signing stage are reported by the same line, which names neither. *)
Lemma C8_counterexample :
  fails_at Demo.hash_fails Demo.external "alice" [] Hashing Demo.failure
  /\ fails_at Demo.sign_fails Demo.external "alice" [] Signing Demo.failure
  /\ last (SearchPage.logs
             (ui (exec (SearchPage.handleSearch Demo.hash_fails Demo.external)
                       (Demo.typed "alice")))) ""
     = "Unknown error occurred"
  /\ last (SearchPage.logs
             (ui (exec (SearchPage.handleSearch Demo.sign_fails Demo.external)
                       (Demo.typed "alice")))) ""
     = "Unknown error occurred".
Proof.
  split; [exists "alice"; now split|].
  split; [exists "alice", "9f86d081884c7d65"; now repeat split|].
  vm_compute. split; reflexivity.
Qed.

(** ** MetricsPage *)

Ltac unfold_metrics :=
  unfold exec, MetricsPage.handleDeleteAuditor, MetricsPage.effect,
    MetricsPage.fetchMetrics, try_catch, try_catch_finally, bind, when, return_, ret,
    lift, delay, perform, console_error, alert,
    MetricsPage.setLoading, MetricsPage.setError, MetricsPage.setInternalData,
    MetricsPage.setExternalData, modify.

Lemma fetch_run (E : Env) (p : MetricsPage.Props) (w : World MetricsPage.State) :
  MetricsPage.fetchMetrics E p w =
  let c := ApiGet (metrics_url p) in
  let s := ui w in
  match match respond E (net w) c with
        | inl e => inl e
        | inr res => read_metrics res
        end with
  | inl e =>
      (Normal tt,
       Build_World
         {| MetricsPage.internalData := MetricsPage.internalData s;
            MetricsPage.externalData := MetricsPage.externalData s;
            MetricsPage.loading := false;
            MetricsPage.error := Some "Failed to load metrics" |}
         (net w ++ [c]) (console w ++ [e]) (alerts w))
  | inr d =>
      (Normal tt,
       Build_World
         {| MetricsPage.internalData :=
              if MetricsPage.isInternal p then d else MetricsPage.internalData s;
            MetricsPage.externalData :=
              if MetricsPage.isInternal p then MetricsPage.externalData s else d;
            MetricsPage.loading := false;
            MetricsPage.error := MetricsPage.error s |}
         (net w ++ [c]) (console w) (alerts w))
  end.
Proof.
  unfold_metrics. unfold metrics_url, read_metrics. cbv zeta.
  destruct (MetricsPage.isInternal p); simpl;
    (destruct (respond E (net w) _) as [e|res]; simpl; [reflexivity|]);
    (destruct (get res "data") as [e|body]; reflexivity).
Qed.

Lemma lower_case_empty (r : string) : MetricsPage.toLowerCase r = "" -> r = "".
Proof. destruct r; simpl; [reflexivity|discriminate]. Qed.

(** C10, as amended: the role resolves to internal when the prop is absent,
    is the empty string, or is the word internal in any letter case, and to
    external for every other value; [fetchMetrics] asks the address of the
    resolved role, and a page of an external role that has loaded without
    error shows the restricted view. *)
Theorem C10_role_resolution
    (E : Env) (p : MetricsPage.Props) (w : World MetricsPage.State) :
  (MetricsPage.isInternal p = true <->
     MetricsPage.role p = None \/ MetricsPage.role p = Some ""
     \/ exists r, MetricsPage.role p = Some r /\ MetricsPage.toLowerCase r = "internal")
  /\ net (exec (MetricsPage.fetchMetrics E p) w)
     = (net w ++ [ApiGet (if MetricsPage.isInternal p
                          then "/api/metrics/internal/"
                          else "/api/metrics/external/")])%list
  /\ (forall s nodes,
        MetricsPage.isInternal p = false ->
        MetricsPage.loading s = false ->
        present (MetricsPage.error s) = false ->
        MetricsPage.render p s = Some nodes ->
        nodes = [Heading "System Metrics";
                 Paragraph "External view (restricted)";
                 Metric "Total Documents"
                        (MetricsPage.safe
                           (get_opt (MetricsPage.externalData s) "total_documents")
                           (JNum 0)) ""]).
Proof.
  split; [|split].
  - unfold MetricsPage.isInternal, MetricsPage.resolvedRole.
    destruct (MetricsPage.role p) as [r|]; simpl.
    + destruct (String.eqb_spec (MetricsPage.toLowerCase r) "") as [He|He]; simpl.
      * split; [intros _|reflexivity]. right. left.
        now rewrite (lower_case_empty r He).
      * split.
        { intros H. apply String.eqb_eq in H. right. right. now exists r. }
        intros [H|[H|(r' & H & Hl)]]; try discriminate H.
        { injection H as ->. now contradiction He. }
        injection H as <-. now apply String.eqb_eq.
    + split; [now left|reflexivity].
  - unfold exec. rewrite fetch_run. cbv zeta. unfold metrics_url.
    destruct (match respond E (net w) _ with inl e => inl e | inr res => _ end);
      reflexivity.
  - intros s nodes Hi Hl He Hr. unfold MetricsPage.render in Hr.
    rewrite Hl, He, Hi in Hr. simpl in Hr.
    destruct (child_text _); simpl in Hr; [|discriminate Hr]. now injection Hr as <-.
Qed.

Lemma C10_role_resolution_witness :
  net (exec (MetricsPage.fetchMetrics (Demo.env 3) {| MetricsPage.role := Some "External" |})
            (mount MetricsPage.initial))
  = [ApiGet "/api/metrics/external/"].
Proof.
  exact (proj1 (proj2 (C10_role_resolution
                         (Demo.env 3) {| MetricsPage.role := Some "External" |}
                         (mount MetricsPage.initial)))).
Defined.

(** C10 as stated fails: the empty string is a role whose lower-case form is
    not the word internal, and the page asks the internal metrics for it. *)
Lemma C10_counterexample :
  MetricsPage.toLowerCase "" <> "internal"
  /\ net (exec (MetricsPage.fetchMetrics (Demo.env 3) {| MetricsPage.role := Some "" |})
               (mount MetricsPage.initial))
     = [ApiGet "/api/metrics/internal/"].
Proof.
  split; [discriminate|reflexivity].
Qed.

(* ------------------------------------------------------------------ *)
(** ** Further properties of SearchPage *)

Lemma or_else_default (v : json) :
  or_else v (JArr []) = JArr [] \/ truthy (or_else v (JArr [])) = true.
Proof. unfold or_else. destruct (truthy v) eqn:H; [now right|now left]. Qed.

Lemma read_response_results (res rs m : json) :
  read_response res = inr (rs, m) -> rs = JArr [] \/ truthy rs = true.
Proof.
  unfold read_response.
  destruct (get res "data") as [|body]; [discriminate|].
  destruct (get body "data") as [|data]; [discriminate|].
  intros H. injection H as <- _. apply or_else_default.
Qed.

(** Every started search settles: whatever the role and whatever fails. *)
Lemma search_settles
    (E : Env) (p : SearchPage.Props) (w : World SearchPage.State)
    (Hq : SearchPage.query (ui w) <> "") :
  exists lines calls errs rs m,
    exec (SearchPage.handleSearch E p) w = settled w lines calls errs rs m
    /\ (List.length calls <= 1)%nat
    /\ (rs = JArr [] \/ truthy rs = true).
Proof.
  destruct (role_cases (SearchPage.role p)) as [Hr|[Hr|[Hi He]]].
  - rewrite (internal_run E p w Hq Hr). cbv zeta.
    destruct (respond E (net w) _) as [e|res].
    { unfold failed. repeat eexists; simpl; auto. }
    destruct (read_response res) as [e|[rs m]] eqn:Hres.
    { unfold failed. repeat eexists; simpl; auto. }
    repeat eexists; simpl; auto. exact (read_response_results _ _ _ Hres).
  - destruct (present (SearchPage.privateKey p)) eqn:Hkey.
    2:{ rewrite (missing_key_run E p w Hq Hr Hkey). repeat eexists; simpl; auto. }
    destruct (SearchPage.auditor p) as [a|] eqn:Hid.
    2:{ rewrite (missing_identity_run E p w Hq Hr Hkey Hid).
        repeat eexists; simpl; auto. }
    rewrite (external_run E p w a Hq Hr Hkey Hid).
    destruct (normalizeKeyword E _) as [e|n].
    { unfold failed. repeat eexists; simpl; auto. }
    destruct (sha256Hex E n) as [e|h].
    { unfold failed. repeat eexists; simpl; auto. }
    destruct (signHashHex E h _) as [e|g].
    { unfold failed. repeat eexists; simpl; auto. }
    cbv zeta.
    destruct (respond E (net w) _) as [e|res].
    { unfold failed. repeat eexists; simpl; auto. }
    destruct (read_response res) as [e|[rs m]] eqn:Hres.
    { unfold failed. repeat eexists; simpl; auto. }
    repeat eexists; simpl; auto. exact (read_response_results _ _ _ Hres).
  - rewrite (other_role_run E p w Hq Hi He). repeat eexists; simpl; auto.
Qed.

(** X1: a started search of SearchPage always comes to rest, for every role
    and every failure, also one inside the [catch] block: loading is off,
    the query and the selected field are what they were, at most one call
    has been sent, and [results] is the empty list or a truthy value. *)
Theorem X1_search_always_settles
    (E : Env) (p : SearchPage.Props) (w : World SearchPage.State)
    (Hq : SearchPage.query (ui w) <> "") :
  let after := exec (SearchPage.handleSearch E p) w in
  SearchPage.loading (ui after) = false
  /\ SearchPage.query (ui after) = SearchPage.query (ui w)
  /\ SearchPage.field (ui after) = SearchPage.field (ui w)
  /\ (exists calls, net after = (net w ++ calls)%list /\ (List.length calls <= 1)%nat)
  /\ (SearchPage.results (ui after) = JArr []
      \/ truthy (SearchPage.results (ui after)) = true)
  /\ alerts after = alerts w.
Proof.
  cbv zeta.
  destruct (search_settles E p w Hq) as (lines & calls & errs & rs & m & -> & Hc & Hrs).
  simpl. repeat split; try assumption. now exists calls.
Qed.

Lemma X1_search_always_settles_witness :
  SearchPage.loading
    (ui (exec (SearchPage.handleSearch Demo.hash_fails Demo.external) (Demo.typed "alice")))
  = false.
Proof.
  assert (Hq : SearchPage.query (ui (Demo.typed "alice")) <> "") by discriminate.
  exact (proj1 (X1_search_always_settles Demo.hash_fails Demo.external
                  (Demo.typed "alice") Hq)).
Defined.

(** X2: an internal search of SearchPage sends exactly one POST to
    /api/search/internal/ whose body has one property, named by the selected
    field and holding the query as typed; no hashing or signing happens on
    this path. *)
Theorem X2_internal_payload
    (E : Env) (p : SearchPage.Props) (w : World SearchPage.State)
    (Hq : SearchPage.query (ui w) <> "")
    (Hrole : SearchPage.role p = Some "internal") :
  net (exec (SearchPage.handleSearch E p) w)
  = (net w ++ [ApiPost "/api/search/internal/"
                       (JObj [(SearchPage.field (ui w),
                               JStr (SearchPage.query (ui w)))])])%list.
Proof.
  rewrite (internal_run E p w Hq Hrole). cbv zeta. unfold internal_payload.
  destruct (respond E (net w) _) as [e|res]; [reflexivity|].
  destruct (read_response res) as [e|[rs m]]; reflexivity.
Qed.

Lemma X2_internal_payload_witness :
  net (exec (SearchPage.handleSearch (Demo.env 3) Demo.internal) (Demo.typed "ABCDE1234F"))
  = [ApiPost "/api/search/internal/" (JObj [("pan", JStr "ABCDE1234F")])].
Proof.
  assert (Hq : SearchPage.query (ui (Demo.typed "ABCDE1234F")) <> "") by discriminate.
  exact (X2_internal_payload (Demo.env 3) Demo.internal (Demo.typed "ABCDE1234F")
           Hq eq_refl).
Defined.

(** X3: the role is compared as written.  For a role that is neither the
    exact word internal nor the exact word external (a missing role, or
    External with a capital), a started search clears results, meta and log,
    writes the preparing line, sends nothing and catches nothing. *)
Theorem X3_unknown_role_does_nothing
    (E : Env) (p : SearchPage.Props) (w : World SearchPage.State)
    (Hq : SearchPage.query (ui w) <> "")
    (Hint : SearchPage.role p <> Some "internal")
    (Hext : SearchPage.role p <> Some "external") :
  let after := exec (SearchPage.handleSearch E p) w in
  SearchPage.logs (ui after) = ["Preparing search..."]
  /\ SearchPage.results (ui after) = JArr []
  /\ SearchPage.meta (ui after) = JNull
  /\ net after = net w
  /\ console after = console w.
Proof.
  cbv zeta.
  destruct (role_cases (SearchPage.role p)) as [Hr|[Hr|[Hi He]]];
    [contradiction|contradiction|].
  rewrite (other_role_run E p w Hq Hi He). simpl.
  rewrite !app_nil_r. now repeat split.
Qed.

Lemma X3_unknown_role_does_nothing_witness :
  net (exec (SearchPage.handleSearch (Demo.env 3)
               {| SearchPage.role := Some "External";
                  SearchPage.auditor := Some Demo.A1;
                  SearchPage.privateKey := Some "PRIVATE-KEY" |})
            (Demo.typed "alice"))
  = net (Demo.typed "alice").
Proof.
  assert (Hq : SearchPage.query (ui (Demo.typed "alice")) <> "") by discriminate.
  refine (proj1 (proj2 (proj2 (proj2
            (X3_unknown_role_does_nothing (Demo.env 3) _ (Demo.typed "alice") Hq _ _)))));
    discriminate.
Defined.

(** X4: handler and page composed.  When every stage of an external search
    succeeds and the service answers with a body whose meta has
    [total_matches = n], the log ends with the received line, nothing is
    written to the console, and the page then shows Match Exists as YES when
    [n > 0] and as NO otherwise, with no result record. *)
Theorem X4_external_search_end_to_end
    (E : Env) (p : SearchPage.Props) (w : World SearchPage.State)
    (a : Auditor) (k h g : string) (res rs m : json) (n : Z)
    (Hq : SearchPage.query (ui w) <> "")
    (Hrole : SearchPage.role p = Some "external")
    (Hkey : present (SearchPage.privateKey p) = true)
    (Hid : SearchPage.auditor p = Some a)
    (Hk : normalizeKeyword E (SearchPage.query (ui w)) = inr k)
    (Hh : sha256Hex E k = inr h)
    (Hg : signHashHex E h (SearchPage.privateKey p) = inr g)
    (Hres : respond E (net w)
              (ApiPost "/api/search/external/" (external_payload (auditor_id a) h g))
            = inr res)
    (Hread : read_response res = inr (rs, m))
    (Htotal : get_opt m "total_matches" = JNum n) :
  let after := exec (SearchPage.handleSearch E p) w in
  SearchPage.logs (ui after)
  = ["Preparing search..."; "Normalizing keyword..."; "Hashing keyword (SHA256)...";
     "Signing hash with RSA private key..."; "Sending request to /api/search/external/";
     "Encrypted results received ✔"]
  /\ SearchPage.results (ui after) = rs
  /\ SearchPage.meta (ui after) = m
  /\ console after = console w
  /\ exists nodes,
       SearchPage.render p (ui after) = Some nodes
       /\ In (Info "Match Exists" (JStr (if (0 <? n)%Z then "YES ✔" else "NO"))
                   (if (0 <? n)%Z then "text-green-600" else "text-red-600")) nodes
       /\ forall r, ~ In (RecordBox r) nodes.
Proof.
  cbv zeta.
  assert (Hrun : exec (SearchPage.handleSearch E p) w
                 = settled w (progress AwaitingResponse ++ ["Encrypted results received ✔"])
                     [ApiPost "/api/search/external/" (external_payload (auditor_id a) h g)]
                     [] rs m).
  { rewrite (external_run E p w a Hq Hrole Hkey Hid), Hk, Hh, Hg.
    cbv zeta. now rewrite Hres, Hread. }
  rewrite Hrun. simpl. rewrite app_nil_r. repeat split.
  pose proof (total_matches_object _ _ Htotal) as Hm.
  unfold SearchPage.render, SearchPage.Info_. simpl. rewrite Hrole, Hm, Htotal. simpl.
  eexists. split; [reflexivity|]. split.
  - do 6 right. now left.
  - intros r H.
    repeat (destruct H as [H|H]; [discriminate H|]). destruct H.
Qed.

Lemma X4_external_search_end_to_end_witness :
  SearchPage.meta
    (ui (exec (SearchPage.handleSearch (Demo.env 0) Demo.external) (Demo.typed "alice")))
  = Demo.meta_of 0.
Proof.
  assert (Hq : SearchPage.query (ui (Demo.typed "alice")) <> "") by discriminate.
  exact (proj1 (proj2 (proj2
           (X4_external_search_end_to_end (Demo.env 0) Demo.external (Demo.typed "alice")
              Demo.A1 "alice" "9f86d081884c7d65" "5b1d3c0a" (Demo.api_answer 0)
              (JArr [Demo.record]) (Demo.meta_of 0) 0
              Hq eq_refl eq_refl eq_refl eq_refl eq_refl eq_refl eq_refl eq_refl
              eq_refl)))).
Defined.

(** X5: an answer that cannot be read is a failure after the fact.  When the
    request is answered with a value that has no body (or is itself
    [undefined] or [null]), the request has been sent, the [TypeError] of the
    read is caught and reported as Unknown error occurred, and results and
    meta stay cleared. *)
Theorem X5_unreadable_answer
    (E : Env) (p : SearchPage.Props) (w : World SearchPage.State)
    (a : Auditor) (k h g : string) (res : json)
    (Hq : SearchPage.query (ui w) <> "")
    (Hrole : SearchPage.role p = Some "external")
    (Hkey : present (SearchPage.privateKey p) = true)
    (Hid : SearchPage.auditor p = Some a)
    (Hk : normalizeKeyword E (SearchPage.query (ui w)) = inr k)
    (Hh : sha256Hex E k = inr h)
    (Hg : signHashHex E h (SearchPage.privateKey p) = inr g)
    (Hres : respond E (net w)
              (ApiPost "/api/search/external/" (external_payload (auditor_id a) h g))
            = inr res)
    (Hbad : is_nullish res = true \/ is_nullish (get_opt res "data") = true) :
  let after := exec (SearchPage.handleSearch E p) w in
  SearchPage.logs (ui after)
  = ["Preparing search..."; "Normalizing keyword..."; "Hashing keyword (SHA256)...";
     "Signing hash with RSA private key..."; "Sending request to /api/search/external/";
     "Unknown error occurred"]
  /\ SearchPage.results (ui after) = JArr []
  /\ SearchPage.meta (ui after) = JNull
  /\ console after = (console w ++ [TypeError])%list
  /\ net after
     = (net w ++ [ApiPost "/api/search/external/"
                          (external_payload (auditor_id a) h g)])%list.
Proof.
  cbv zeta.
  assert (Hread : read_response res = inl TypeError).
  { unfold read_response. destruct Hbad as [Hb|Hb].
    - destruct res; try discriminate Hb; reflexivity.
    - unfold get_opt in Hb. destruct (get res "data") as [e|body] eqn:Hd.
      + destruct res; simpl in Hd; try discriminate Hd; now injection Hd as <-.
      + destruct body; try discriminate Hb; reflexivity. }
  rewrite (external_run E p w a Hq Hrole Hkey Hid), Hk, Hh, Hg.
  cbv zeta. rewrite Hres, Hread. now repeat split.
Qed.

Lemma X5_unreadable_answer_witness :
  SearchPage.logs
    (ui (exec (SearchPage.handleSearch
                 (Demo.answering (JObj [("status", JNum 204)]))
                 Demo.external)
              (Demo.typed "alice")))
  = ["Preparing search..."; "Normalizing keyword..."; "Hashing keyword (SHA256)...";
     "Signing hash with RSA private key..."; "Sending request to /api/search/external/";
     "Unknown error occurred"].
Proof.
  assert (Hq : SearchPage.query (ui (Demo.typed "alice")) <> "") by discriminate.
  refine (proj1 (X5_unreadable_answer (Demo.answering (JObj [("status", JNum 204)]))
                   Demo.external (Demo.typed "alice")
                   Demo.A1 "alice" "9f86d081884c7d65" "5b1d3c0a"
                   (JObj [("status", JNum 204)])
                   Hq eq_refl eq_refl eq_refl eq_refl eq_refl eq_refl eq_refl _)).
  right. reflexivity.
Defined.

(** X6: the default of [results].  When the body of the answer carries no
    [data], or a [data] without a truthy [results], the search still
    completes: [results] is the empty list, meta is the body's meta, and the
    log ends with the received line. *)
Theorem X6_results_default
    (E : Env) (p : SearchPage.Props) (w : World SearchPage.State)
    (a : Auditor) (k h g : string) (res body : json)
    (Hq : SearchPage.query (ui w) <> "")
    (Hrole : SearchPage.role p = Some "external")
    (Hkey : present (SearchPage.privateKey p) = true)
    (Hid : SearchPage.auditor p = Some a)
    (Hk : normalizeKeyword E (SearchPage.query (ui w)) = inr k)
    (Hh : sha256Hex E k = inr h)
    (Hg : signHashHex E h (SearchPage.privateKey p) = inr g)
    (Hres : respond E (net w)
              (ApiPost "/api/search/external/" (external_payload (auditor_id a) h g))
            = inr res)
    (Hbody : get res "data" = inr body)
    (Hsome : is_nullish body = false)
    (Hnone : truthy (get_opt (get_opt body "data") "results") = false) :
  let after := exec (SearchPage.handleSearch E p) w in
  SearchPage.results (ui after) = JArr []
  /\ SearchPage.meta (ui after) = get_opt body "meta"
  /\ last (SearchPage.logs (ui after)) "" = "Encrypted results received ✔"
  /\ console after = console w.
Proof.
  cbv zeta.
  assert (Hread : read_response res = inr (JArr [], get_opt body "meta")).
  { unfold read_response. rewrite Hbody.
    assert (Hd : get body "data" = inr (get_opt body "data"))
      by (destruct body; try discriminate Hsome; reflexivity).
    rewrite Hd. unfold or_else. now rewrite Hnone. }
  rewrite (external_run E p w a Hq Hrole Hkey Hid), Hk, Hh, Hg.
  cbv zeta. rewrite Hres, Hread. simpl. rewrite app_nil_r. now repeat split.
Qed.

Lemma X6_results_default_witness :
  SearchPage.results
    (ui (exec (SearchPage.handleSearch
                 (Demo.answering (JObj [("data", JObj [("meta", Demo.meta_of 0)])]))
                 Demo.external)
              (Demo.typed "alice")))
  = JArr [].
Proof.
  assert (Hq : SearchPage.query (ui (Demo.typed "alice")) <> "") by discriminate.
  exact (proj1 (X6_results_default
                  (Demo.answering (JObj [("data", JObj [("meta", Demo.meta_of 0)])]))
                  Demo.external (Demo.typed "alice")
                  Demo.A1 "alice" "9f86d081884c7d65" "5b1d3c0a"
                  (JObj [("data", JObj [("meta", Demo.meta_of 0)])])
                  (JObj [("meta", Demo.meta_of 0)])
                  Hq eq_refl eq_refl eq_refl eq_refl eq_refl eq_refl eq_refl
                  eq_refl eq_refl eq_refl)).
Defined.

(* ------------------------------------------------------------------ *)
(** ** Further properties of the service-based page *)

(** X7: the service-based page hands the query as typed, together with the
    private key read from local storage under auditor_private_key, to the
    external search service, in one call; the lines about hashing and signing
    are written before that call, whatever the service then does. *)
Theorem X7_service_receives_query_and_key
    (E : Env) (p : ServiceSearchPage.Props) (w : World ServiceSearchPage.State)
    (Hq : ServiceSearchPage.query (ui w) <> "")
    (Hrole : ServiceSearchPage.role p = Some "external")
    (Hkey : present (localStorage_getItem E "auditor_private_key") = true) :
  let after := exec (ServiceSearchPage.handleSearch E p) w in
  net after
  = (net w ++ [ExternalSearch (ServiceSearchPage.query (ui w))
                              (localStorage_getItem E "auditor_private_key")])%list
  /\ exists rest,
       ServiceSearchPage.logs (ui after)
       = (["Preparing search..."; "Hashing keyword (SHA256)..."; "Signing hash (RSA)..."]
          ++ rest)%list.
Proof.
  cbv zeta. rewrite (service_external_run E p w Hq Hrole). cbv zeta. rewrite Hkey.
  destruct (respond E (net w) _) as [e|res].
  { split; [reflexivity|]. now eexists. }
  destruct (read_service_response res) as [e|[rs m]].
  - split; [reflexivity|]. simpl. now eexists.
  - split; [reflexivity|]. simpl. now eexists.
Qed.

Lemma X7_service_receives_query_and_key_witness :
  net (exec (ServiceSearchPage.handleSearch (Demo.env 3) Demo.service_external)
            (Demo.service_typed "alice"))
  = [ExternalSearch "alice" (Some "PRIVATE-KEY")].
Proof.
  assert (Hq : ServiceSearchPage.query (ui (Demo.service_typed "alice")) <> "")
    by discriminate.
  exact (proj1 (X7_service_receives_query_and_key (Demo.env 3) Demo.service_external
                  (Demo.service_typed "alice") Hq eq_refl eq_refl)).
Defined.

(** X8: a started search of the service-based page always comes to rest:
    loading is off, the query is kept, at most one call has been sent and at
    most one error has gone to the console. *)
Theorem X8_service_search_always_settles
    (E : Env) (p : ServiceSearchPage.Props) (w : World ServiceSearchPage.State)
    (Hq : ServiceSearchPage.query (ui w) <> "") :
  let after := exec (ServiceSearchPage.handleSearch E p) w in
  ServiceSearchPage.loading (ui after) = false
  /\ ServiceSearchPage.query (ui after) = ServiceSearchPage.query (ui w)
  /\ (exists calls, net after = (net w ++ calls)%list /\ (List.length calls <= 1)%nat)
  /\ (exists errs, console after = (console w ++ errs)%list
                   /\ (List.length errs <= 1)%nat).
Proof.
  cbv zeta.
  assert (H : exists lines calls errs rs m,
             exec (ServiceSearchPage.handleSearch E p) w
             = service_settled w lines calls errs rs m
             /\ (List.length calls <= 1)%nat /\ (List.length errs <= 1)%nat).
  { destruct (role_cases (ServiceSearchPage.role p)) as [Hr|[Hr|[Hi He]]].
    - rewrite (service_internal_run E p w Hq Hr). cbv zeta.
      destruct (respond E (net w) _) as [e|res].
      { unfold service_failed. repeat eexists; simpl; auto. }
      destruct (read_service_response res) as [e|[rs m]];
        unfold service_failed; repeat eexists; simpl; auto.
    - rewrite (service_external_run E p w Hq Hr). cbv zeta.
      destruct (present _); [|repeat eexists; simpl; auto].
      destruct (respond E (net w) _) as [e|res].
      { unfold service_failed. repeat eexists; simpl; auto. }
      destruct (read_service_response res) as [e|[rs m]];
        unfold service_failed; repeat eexists; simpl; auto.
    - rewrite (service_other_role_run E p w Hq Hi He). repeat eexists; simpl; auto. }
  destruct H as (lines & calls & errs & rs & m & -> & Hc & He).
  simpl. repeat split; eauto.
Qed.

Lemma X8_service_search_always_settles_witness :
  ServiceSearchPage.loading
    (ui (exec (ServiceSearchPage.handleSearch Demo.rejecting Demo.service_external)
              (Demo.service_typed "alice")))
  = false.
Proof.
  assert (Hq : ServiceSearchPage.query (ui (Demo.service_typed "alice")) <> "")
    by discriminate.
  exact (proj1 (X8_service_search_always_settles Demo.rejecting Demo.service_external
                  (Demo.service_typed "alice") Hq)).
Defined.

(* ------------------------------------------------------------------ *)
(** ** Further properties of MetricsPage *)

Lemma fetch_settles
    (E : Env) (p : MetricsPage.Props) (w : World MetricsPage.State) :
  net (exec (MetricsPage.fetchMetrics E p) w) = (net w ++ [ApiGet (metrics_url p)])%list
  /\ MetricsPage.loading (ui (exec (MetricsPage.fetchMetrics E p) w)) = false
  /\ alerts (exec (MetricsPage.fetchMetrics E p) w) = alerts w.
Proof.
  unfold exec. rewrite fetch_run. cbv zeta.
  destruct (match respond E (net w) _ with inl e => inl e | inr res => _ end);
    now repeat split.
Qed.

(** X9: [fetchMetrics] never rejects: it completes normally whatever the api
    does, sends exactly one GET, to the address of the resolved role, leaves
    loading off, and on a failure sets the error text, writes the error to
    the console and keeps the data it had. *)
Theorem X9_fetch_never_rejects
    (E : Env) (p : MetricsPage.Props) (w : World MetricsPage.State) :
  let c := ApiGet (metrics_url p) in
  let after := exec (MetricsPage.fetchMetrics E p) w in
  fst (MetricsPage.fetchMetrics E p w) = Normal tt
  /\ net after = (net w ++ [c])%list
  /\ MetricsPage.loading (ui after) = false
  /\ alerts after = alerts w
  /\ (forall e, respond E (net w) c = inl e ->
        MetricsPage.error (ui after) = Some "Failed to load metrics"
        /\ console after = (console w ++ [e])%list
        /\ MetricsPage.internalData (ui after) = MetricsPage.internalData (ui w)
        /\ MetricsPage.externalData (ui after) = MetricsPage.externalData (ui w)).
Proof.
  cbv zeta. unfold exec. rewrite fetch_run. cbv zeta.
  destruct (respond E (net w) _) as [e|res] eqn:Hres.
  - simpl. do 4 (split; [reflexivity|]).
    intros e' He'. injection He' as <-. now repeat split.
  - destruct (read_metrics res) as [e|d]; simpl;
      do 4 (split; [reflexivity|]); discriminate.
Qed.

(** X10: the error of MetricsPage is never cleared.  Once a load has failed,
    every later [fetchMetrics], also a successful one, leaves an error set,
    and the page shows the error text and nothing else: no data is shown
    again until the page is mounted anew. *)
Theorem X10_error_is_sticky
    (E : Env) (p : MetricsPage.Props) (w : World MetricsPage.State) (msg : string)
    (Herr : MetricsPage.error (ui w) = Some msg)
    (Hmsg : msg <> "") :
  let after := exec (MetricsPage.fetchMetrics E p) w in
  exists text,
    MetricsPage.error (ui after) = Some text
    /\ (text = msg \/ text = "Failed to load metrics")
    /\ MetricsPage.render p (ui after) = Some [TextNode text].
Proof.
  cbv zeta. unfold exec. rewrite fetch_run. cbv zeta.
  destruct (match respond E (net w) _ with inl e => inl e | inr res => _ end) as [e|d];
    simpl; unfold MetricsPage.render; simpl.
  - eexists. split; [reflexivity|]. split; [now right|reflexivity].
  - rewrite Herr. simpl.
    destruct (String.eqb_spec msg ""); [contradiction|]. simpl.
    exists msg. split; [reflexivity|]. split; [now left|reflexivity].
Qed.

Lemma X10_error_is_sticky_witness :
  exists text,
    MetricsPage.error
      (ui (exec (MetricsPage.fetchMetrics (Demo.env 3) {| MetricsPage.role := None |})
                (exec (MetricsPage.fetchMetrics Demo.rejecting
                         {| MetricsPage.role := None |})
                      (mount MetricsPage.initial))))
    = Some text
    /\ (text = "Failed to load metrics" \/ text = "Failed to load metrics")
    /\ MetricsPage.render {| MetricsPage.role := None |}
         (ui (exec (MetricsPage.fetchMetrics (Demo.env 3) {| MetricsPage.role := None |})
                   (exec (MetricsPage.fetchMetrics Demo.rejecting
                            {| MetricsPage.role := None |})
                         (mount MetricsPage.initial))))
       = Some [TextNode text].
Proof.
  apply (X10_error_is_sticky (Demo.env 3) {| MetricsPage.role := None |}
           (exec (MetricsPage.fetchMetrics Demo.rejecting {| MetricsPage.role := None |})
                 (mount MetricsPage.initial))
           "Failed to load metrics"); [reflexivity|discriminate].
Defined.

Lemma X9_fetch_never_rejects_witness :
  MetricsPage.error
    (ui (exec (MetricsPage.fetchMetrics Demo.rejecting {| MetricsPage.role := None |})
              (mount MetricsPage.initial)))
  = Some "Failed to load metrics".
Proof.
  exact (proj1 (proj2 (proj2 (proj2 (proj2
           (X9_fetch_never_rejects Demo.rejecting {| MetricsPage.role := None |}
              (mount MetricsPage.initial)))))
           Demo.rejection eq_refl)).
Defined.

(** X11: deleting an auditor.  The DELETE goes to /api/auditor/<id>/delete/.
    When it is refused, the user gets the alert, the page state is untouched
    and no metrics are fetched.  When it is accepted, exactly one fetch of
    the metrics follows and no alert is shown, also when that fetch fails. *)
Theorem X11_delete_auditor
    (E : Env) (p : MetricsPage.Props) (w : World MetricsPage.State) (auditorId : json) :
  let del := ApiDelete ("/api/auditor/" ++ to_string auditorId ++ "/delete/") in
  let after := exec (MetricsPage.handleDeleteAuditor E p auditorId) w in
  (forall e, respond E (net w) del = inl e ->
     ui after = ui w
     /\ net after = (net w ++ [del])%list
     /\ alerts after = (alerts w ++ ["Failed to delete auditor"])%list
     /\ console after = (console w ++ [e])%list)
  /\ (forall v, respond E (net w) del = inr v ->
        net after = (net w ++ [del; ApiGet (metrics_url p)])%list
        /\ alerts after = alerts w
        /\ MetricsPage.loading (ui after) = false).
Proof.
  cbv zeta. split.
  - intros e He. unfold_metrics. rewrite He. simpl. now repeat split.
  - intros v Hv.
    assert (Hrun : exec (MetricsPage.handleDeleteAuditor E p auditorId) w
                   = exec (MetricsPage.fetchMetrics E p)
                       (Build_World (ui w)
                          (net w ++ [ApiDelete ("/api/auditor/" ++ to_string auditorId
                                                 ++ "/delete/")])
                          (console w) (alerts w))).
    { unfold exec, MetricsPage.handleDeleteAuditor, try_catch, try_catch_finally.
      unfold bind at 1. unfold perform at 1. rewrite Hv.
      rewrite fetch_run. cbv zeta. simpl.
      destruct (match respond E _ _ with inl e => inl e | inr res => _ end);
        reflexivity. }
    rewrite Hrun.
    pose proof (fetch_settles E p
                  (Build_World (ui w)
                     (net w ++ [ApiDelete ("/api/auditor/" ++ to_string auditorId
                                            ++ "/delete/")])
                     (console w) (alerts w))) as (Hn & Hl & Ha).
    rewrite Hn, Hl, Ha. simpl. rewrite <- app_assoc. now repeat split.
Qed.

Lemma X11_delete_auditor_witness :
  alerts (exec (MetricsPage.handleDeleteAuditor Demo.rejecting
                  {| MetricsPage.role := None |} (JStr "A1"))
               (mount MetricsPage.initial))
  = ["Failed to delete auditor"].
Proof.
  exact (proj1 (proj2 (proj2
           (proj1 (X11_delete_auditor Demo.rejecting {| MetricsPage.role := None |}
                     (mount MetricsPage.initial) (JStr "A1"))
                  Demo.rejection eq_refl)))).
Defined.

Lemma lower_idempotent (c : ascii) : MetricsPage.lower (MetricsPage.lower c) = MetricsPage.lower c.
Proof. destruct c as [[] [] [] [] [] [] [] []]; reflexivity. Qed.

Lemma toLowerCase_idempotent (s : string) :
  MetricsPage.toLowerCase (MetricsPage.toLowerCase s) = MetricsPage.toLowerCase s.
Proof.
  induction s as [|c s IH]; simpl; [reflexivity|].
  now rewrite lower_idempotent, IH.
Qed.

(** X12: the letter case of the role does not matter to MetricsPage: a role
    and its lower-case form resolve alike, the resolved role is never empty
    and is already in lower case when a role was given. *)
Theorem X12_role_case_insensitive (r : string) :
  MetricsPage.resolvedRole {| MetricsPage.role := Some r |}
  = MetricsPage.resolvedRole {| MetricsPage.role := Some (MetricsPage.toLowerCase r) |}
  /\ MetricsPage.isInternal {| MetricsPage.role := Some r |}
     = MetricsPage.isInternal {| MetricsPage.role := Some (MetricsPage.toLowerCase r) |}
  /\ MetricsPage.resolvedRole {| MetricsPage.role := Some r |} <> ""
  /\ MetricsPage.toLowerCase (MetricsPage.resolvedRole {| MetricsPage.role := Some r |})
     = MetricsPage.resolvedRole {| MetricsPage.role := Some r |}.
Proof.
  unfold MetricsPage.isInternal, MetricsPage.resolvedRole. simpl.
  rewrite toLowerCase_idempotent.
  destruct (String.eqb_spec (MetricsPage.toLowerCase r) "") as [He|He]; simpl.
  - repeat split. discriminate.
  - repeat split; [exact He|apply toLowerCase_idempotent].
Qed.

(** X13: for the internal role SearchPage shows exactly the elements of
    [results], one box each, and never the audit panel: no field of meta is
    put on the page, whatever meta holds. *)
Theorem X13_internal_view
    (p : SearchPage.Props) (s : SearchPage.State) (l : list json)
    (Hrole : SearchPage.role p = Some "internal")
    (Hres : SearchPage.results s = JArr l) :
  exists nodes,
    SearchPage.render p s = Some nodes
    /\ (forall r, In (RecordBox r) nodes <-> In r l)
    /\ (forall label v h, ~ In (Info label v h) nodes)
    /\ (In (Paragraph "No results") nodes <-> l = []).
Proof.
  unfold SearchPage.render. rewrite Hrole, Hres, render_list_records. simpl.
  eexists. split; [reflexivity|]. split; [|split].
  - intros r. split.
    + intros H. repeat (destruct H as [H|H]; [discriminate H|]).
      apply in_app_or in H. destruct H as [H|H].
      * destruct l as [|x l]; [destruct H as [H|[]]; discriminate H|].
        apply in_map_iff in H. destruct H as (y & Hy & Hin). now injection Hy as <-.
      * destruct H as [H|H]; [discriminate H|].
        apply not_log_line in H. destruct H as [t H]. discriminate H.
    + intros H. do 6 right. apply in_or_app. left.
      destruct l as [|x l]; [destruct H|]. now apply in_map.
  - intros label v h H. repeat (destruct H as [H|H]; [discriminate H|]).
    apply in_app_or in H. destruct H as [H|H].
    + destruct l as [|x l]; [destruct H as [H|[]]; discriminate H|].
      apply in_map_iff in H. destruct H as (y & Hy & _). discriminate Hy.
    + destruct H as [H|H]; [discriminate H|].
      apply not_log_line in H. destruct H as [t H]. discriminate H.
  - split.
    + intros H. repeat (destruct H as [H|H]; [discriminate H|]).
      apply in_app_or in H. destruct H as [H|H].
      * destruct l as [|x l]; [reflexivity|].
        apply in_map_iff in H. destruct H as (y & Hy & _). discriminate Hy.
      * destruct H as [H|H]; [discriminate H|].
        apply not_log_line in H. destruct H as [t H]. discriminate H.
    + intros ->. do 6 right. now left.
Qed.

Lemma X13_internal_view_witness :
  exists nodes,
    SearchPage.render Demo.internal
      (ui (exec (SearchPage.handleSearch (Demo.env 3) Demo.internal) (Demo.typed "alice")))
    = Some nodes
    /\ In (RecordBox Demo.record) nodes.
Proof.
  assert (Hres : SearchPage.results
                   (ui (exec (SearchPage.handleSearch (Demo.env 3) Demo.internal)
                             (Demo.typed "alice")))
                 = JArr [Demo.record]) by (vm_compute; reflexivity).
  destruct (X13_internal_view Demo.internal _ [Demo.record] eq_refl Hres)
    as (nodes & Hr & Hin & _).
  exists nodes. split; [exact Hr|]. apply Hin. now left.
Defined.

(** X14: every search starts from a clean slate.  What a started search
    leaves behind depends on the query, the selected field and what was sent
    before, and on nothing else of the earlier state: not on the earlier
    results, meta, log or loading flag. *)
Theorem X14_clean_slate
    (E : Env) (p : SearchPage.Props) (w1 w2 : World SearchPage.State)
    (Hq : SearchPage.query (ui w1) <> "")
    (Hquery : SearchPage.query (ui w1) = SearchPage.query (ui w2))
    (Hfield : SearchPage.field (ui w1) = SearchPage.field (ui w2))
    (Hnet : net w1 = net w2)
    (Hconsole : console w1 = console w2)
    (Halerts : alerts w1 = alerts w2) :
  exec (SearchPage.handleSearch E p) w1 = exec (SearchPage.handleSearch E p) w2.
Proof.
  assert (Hq2 : SearchPage.query (ui w2) <> "") by now rewrite <- Hquery.
  destruct (role_cases (SearchPage.role p)) as [Hr|[Hr|[Hi He]]].
  - rewrite (internal_run E p w1 Hq Hr), (internal_run E p w2 Hq2 Hr).
    unfold failed, settled. now rewrite Hquery, Hfield, Hnet, Hconsole, Halerts.
  - destruct (present (SearchPage.privateKey p)) eqn:Hkey.
    2:{ rewrite (missing_key_run E p w1 Hq Hr Hkey), (missing_key_run E p w2 Hq2 Hr Hkey).
        unfold settled. now rewrite Hquery, Hfield, Hnet, Hconsole, Halerts. }
    destruct (SearchPage.auditor p) as [a|] eqn:Hid.
    2:{ rewrite (missing_identity_run E p w1 Hq Hr Hkey Hid),
                (missing_identity_run E p w2 Hq2 Hr Hkey Hid).
        unfold settled. now rewrite Hquery, Hfield, Hnet, Hconsole, Halerts. }
    rewrite (external_run E p w1 a Hq Hr Hkey Hid), (external_run E p w2 a Hq2 Hr Hkey Hid).
    unfold failed, settled. now rewrite Hquery, Hfield, Hnet, Hconsole, Halerts.
  - rewrite (other_role_run E p w1 Hq Hi He), (other_role_run E p w2 Hq2 Hi He).
    unfold settled. now rewrite Hquery, Hfield, Hnet, Hconsole, Halerts.
Qed.

Lemma X14_clean_slate_witness :
  exec (SearchPage.handleSearch (Demo.env 3) Demo.external)
       (exec (SearchPage.setQuery "bob") (mount (Demo.shown 3)))
  = exec (SearchPage.handleSearch (Demo.env 3) Demo.external) (Demo.typed "bob").
Proof.
  apply X14_clean_slate; try reflexivity. discriminate.
Defined.

(** X15: the external metrics view, from mount to page.  For a role that
    does not resolve to internal, when the api answers, the page shows the
    restricted view with the total of documents of the answer, and 0 when
    the answer carries no such total. *)
Theorem X15_external_metrics_view
    (E : Env) (p : MetricsPage.Props) (res d : json)
    (Hext : MetricsPage.isInternal p = false)
    (Hres : respond E [] (ApiGet "/api/metrics/external/") = inr res)
    (Hread : read_metrics res = inr d) :
  let page := MetricsPage.render p (ui (exec (MetricsPage.effect E p)
                                             (mount MetricsPage.initial))) in
  let total := get_opt d "total_documents" in
  (forall n, total = JNum n ->
     page = Some [Heading "System Metrics"; Paragraph "External view (restricted)";
                  Metric "Total Documents" (JNum n) ""])
  /\ (is_nullish total = true ->
      page = Some [Heading "System Metrics"; Paragraph "External view (restricted)";
                   Metric "Total Documents" (JNum 0) ""]).
Proof.
  cbv zeta. unfold MetricsPage.effect, exec. rewrite fetch_run. cbv zeta.
  unfold metrics_url. rewrite Hext. simpl net. rewrite Hres, Hread. simpl.
  unfold MetricsPage.render. simpl. rewrite Hext. simpl. split.
  - intros n ->. reflexivity.
  - intros Hn. unfold MetricsPage.safe. rewrite Hn. reflexivity.
Qed.

Lemma X15_external_metrics_view_witness :
  MetricsPage.render {| MetricsPage.role := Some "external" |}
    (ui (exec (MetricsPage.effect (Demo.answering (JObj [("data", JObj [])]))
                 {| MetricsPage.role := Some "external" |})
              (mount MetricsPage.initial)))
  = Some [Heading "System Metrics"; Paragraph "External view (restricted)";
          Metric "Total Documents" (JNum 0) ""].
Proof.
  exact (proj2 (X15_external_metrics_view (Demo.answering (JObj [("data", JObj [])]))
                  {| MetricsPage.role := Some "external" |}
                  (JObj [("data", JObj [])]) (JObj [])
                  eq_refl eq_refl eq_refl)
               eq_refl).
Defined.

(** X16: a successful load fills the data of the resolved role and nothing
    else: the other role's data, the error and the console are untouched,
    and the stored data is never [null] or [undefined], an answer without
    [data] being stored as the empty object. *)
Theorem X16_fetch_fills_one_slot
    (E : Env) (p : MetricsPage.Props) (w : World MetricsPage.State) (res d : json)
    (Hres : respond E (net w) (ApiGet (metrics_url p)) = inr res)
    (Hread : read_metrics res = inr d) :
  let after := exec (MetricsPage.fetchMetrics E p) w in
  (if MetricsPage.isInternal p
   then MetricsPage.internalData (ui after) = d
        /\ MetricsPage.externalData (ui after) = MetricsPage.externalData (ui w)
   else MetricsPage.externalData (ui after) = d
        /\ MetricsPage.internalData (ui after) = MetricsPage.internalData (ui w))
  /\ MetricsPage.error (ui after) = MetricsPage.error (ui w)
  /\ console after = console w
  /\ truthy d = true.
Proof.
  cbv zeta. unfold exec. rewrite fetch_run. cbv zeta. rewrite Hres, Hread. simpl.
  split; [destruct (MetricsPage.isInternal p); now split|].
  repeat split.
  unfold read_metrics in Hread. destruct (get res "data") as [|body]; [discriminate|].
  injection Hread as <-. unfold or_else.
  destruct (truthy (get_opt body "data")) eqn:Ht; [exact Ht|reflexivity].
Qed.

Lemma X16_fetch_fills_one_slot_witness :
  MetricsPage.error
    (ui (exec (MetricsPage.fetchMetrics (Demo.answering (JObj []))
                 {| MetricsPage.role := None |})
              (mount MetricsPage.initial)))
  = MetricsPage.error (ui (mount MetricsPage.initial)).
Proof.
  exact (proj1 (proj2
           (X16_fetch_fills_one_slot (Demo.answering (JObj []))
              {| MetricsPage.role := None |} (mount MetricsPage.initial)
              (JObj []) (JObj []) eq_refl eq_refl))).
Defined.

(** X17: what makes a load fail.  A load fails exactly when the request is
    rejected or resolves to [undefined] or [null]; an answer of any other
    shape, with or without a body, is accepted. *)
Theorem X17_load_failure
    (E : Env) (p : MetricsPage.Props) (w : World MetricsPage.State)
    (Hclean : MetricsPage.error (ui w) = None) :
  let after := exec (MetricsPage.fetchMetrics E p) w in
  MetricsPage.error (ui after) = Some "Failed to load metrics"
  <-> (exists e, respond E (net w) (ApiGet (metrics_url p)) = inl e)
      \/ (exists res, respond E (net w) (ApiGet (metrics_url p)) = inr res
                      /\ is_nullish res = true).
Proof.
  cbv zeta. unfold exec. rewrite fetch_run. cbv zeta.
  destruct (respond E (net w) _) as [e|res].
  - simpl. split; [intros _; left; now exists e|reflexivity].
  - unfold read_metrics. destruct res; simpl; rewrite ?Hclean; split;
      try discriminate; try reflexivity;
      try (intros _; right; eexists; now split);
      intros [[e He]|[r [Hr Hn]]]; try discriminate He;
      injection Hr as <-; discriminate Hn.
Qed.

Lemma X17_load_failure_witness :
  MetricsPage.error
    (ui (exec (MetricsPage.fetchMetrics (Demo.answering JNull) {| MetricsPage.role := None |})
              (mount MetricsPage.initial)))
  = Some "Failed to load metrics".
Proof.
  apply (X17_load_failure (Demo.answering JNull) {| MetricsPage.role := None |}
           (mount MetricsPage.initial) eq_refl).
  right. exists JNull. now split.
Defined.

(** X18: an internal dashboard without data shows zeros and placeholders,
    not blanks: every count is 0, the times are 0 ms, the auditor list says
    that none is registered, the last index update says No data, and the
    box of failed verifications is not marked as danger. *)
Theorem X18_empty_dashboard
    (p : MetricsPage.Props) (s : MetricsPage.State)
    (Hint : MetricsPage.isInternal p = true)
    (Hloaded : MetricsPage.loading s = false)
    (Hok : present (MetricsPage.error s) = false)
    (Hm : truthy (get_opt (MetricsPage.internalData s) "system_metrics") = false)
    (Ha : truthy (get_opt (MetricsPage.internalData s) "auditors") = false) :
  MetricsPage.render p s
  = Some [Heading "System Metrics";
          Paragraph "Real-time performance and security analytics";
          CreateAuditorCard;
          StatCard "Total Documents" (JNum 0);
          StatCard "Total Tokens" (JNum 0);
          StatCard "Avg External Search" (JStr "0 ms");
          StatCard "External Searches (24h)" (JNum 0);
          Heading "Auditor Key Overview";
          Paragraph "No auditors registered.";
          Heading "Security Overview";
          MetricBox "Failed Signature Verifications (24h)" (JNum 0) false;
          MetricBox "External Token Entries" (JNum 0) false;
          MetricBox "Avg External Search Time" (JStr "0 ms") false;
          Heading "Index Health";
          Row "Last Index Update" (JStr "No data");
          Row "Total Token Entries" (JNum 0);
          Row "External Token Entries" (JNum 0)].
Proof.
  unfold MetricsPage.render. rewrite Hloaded, Hok, Hint. simpl.
  unfold or_else. rewrite Hm, Ha. reflexivity.
Qed.

Lemma X18_empty_dashboard_witness :
  exists nodes,
    MetricsPage.render {| MetricsPage.role := Some "Internal" |}
      (ui (exec (MetricsPage.effect (Demo.answering (JObj []))
                   {| MetricsPage.role := Some "Internal" |})
                (mount MetricsPage.initial)))
    = Some nodes
    /\ In (Paragraph "No auditors registered.") nodes.
Proof.
  eexists. split.
  - apply X18_empty_dashboard; reflexivity.
  - do 8 right. now left.
Defined.
